(** * Ollama benchmark script: a shallow embedding of [src/benchmark.ts]

    The script sends a list of prompts to a model server, one request at a
    time, folds the returned timing and token metadata into totals and
    averages, and appends a summary and one section per test to a report
    file.  The embedding follows the two functions of the source,
    [benchmarkOllamaWithLangchain] (the single-request prober) and
    [runBenchmark] (the run coordinator).

    - JavaScript numbers are IEEE 754 binary64 values: [spec_float] with
      precision 53 and maximal exponent 1024, so that [0/0] is [NaN] and
      sums round as they do in the script.
    - The effects of the script (the clock, the request to the model
      server, the appending file write, the console) go through a small
      state-and-exception monad over an abstract host; every effect is
      recorded, in order, in a trace.
    - The prompt template language of the client library (f-string
      templates: [{name}] is a placeholder, doubled braces are literal
      braces) is embedded as the parser the library runs on the prompt. *)

From Stdlib Require Import ZArith Ascii String List SpecFloat Lia.
From stdpp Require Import base option list strings pretty gmap.
From Equations Require Import Equations.

Set Default Proof Using "Type".
Local Open Scope string_scope.

(* ===================================================================== *)
(** * JavaScript numbers *)
(* ===================================================================== *)

Module Num.

Definition prec : Z := 53.
Definition emax : Z := 1024.

Definition number : Type := spec_float.

Definition NaN : number := S754_nan.
Definition zero : number := S754_zero false.

(** The number denoted by an integer literal (or an integer read from
    JSON): the nearest binary64 value. *)
Definition of_Z (z : Z) : number := binary_normalize prec emax z 0 false.
Definition of_nat (n : nat) : number := of_Z (Z.of_nat n).

Definition add (x y : number) : number := SFadd prec emax x y.
Definition div (x y : number) : number := SFdiv prec emax x y.

(** The literal [1e9]. *)
Definition _1e9 : number := of_Z 1000000000.

(** The binary64 value of a positive integer [z] below [2^53], written
    out: the mantissa is [z] shifted to 53 bits. *)
Definition exact (z : Z) : number :=
  let d := (Z.log2 z + 1)%Z in
  S754_finite false (Z.to_pos (z * 2 ^ (prec - d))) (d - prec).

Definition number_eq_dec (x y : number) : {x = y} + {x <> y}.
Proof.
  decide equality; try apply Bool.bool_dec;
    try apply Z.eq_dec; apply Pos.eq_dec.
Defined.

End Num.

Abbreviation number := Num.number.

#[global] Instance number_eq_decision : EqDecision number := Num.number_eq_dec.

(** A value of type [any] as the script meets it in [response_metadata]:
    the field is a number, or it is absent. *)
Inductive jsval : Type :=
| JsUndefined
| JsNumber (n : number).

(** Unary plus, [+v]. *)
Definition to_number (v : jsval) : number :=
  match v with
  | JsUndefined => Num.NaN
  | JsNumber n => n
  end.

(** Built-in number formatting: [String(x)] as a template literal applies it
    and [x.toFixed(digits)].  Both belong to the language, not to the
    script, and the script only ever pastes their output into the report. *)
Record NumberFormat : Type := {
  toString : number -> string;
  toFixed : number -> nat -> string
}.

(* ===================================================================== *)
(** * Strings *)
(* ===================================================================== *)

(** [s.replace(/c/g, d)] for a one-character pattern [c]. *)
Fixpoint replace_all (c d : ascii) (s : string) : string :=
  match s with
  | EmptyString => EmptyString
  | String a rest =>
      String (if Ascii.eqb a c then d else a) (replace_all c d rest)
  end.

Fixpoint contains (c : ascii) (s : string) : bool :=
  match s with
  | EmptyString => false
  | String a rest => Ascii.eqb a c || contains c rest
  end.

(** [parts.join(sep)]. *)
Fixpoint join (sep : string) (parts : list string) : string :=
  match parts with
  | [] => ""
  | [p] => p
  | p :: rest => p +:+ sep +:+ join sep rest
  end.

(** [s.padStart(width, "0")]. *)
Definition padStart0 (width : nat) (s : string) : string :=
  String.concat "" (replicate (width - String.length s) "0") +:+ s.

Definition is_digit (a : ascii) : bool :=
  let n := nat_of_ascii a in (48 <=? n)%nat && (n <=? 57)%nat.

(** [has_form pattern s]: [s] is written after [pattern], in which each of
    the letters [Y M D H S m] stands for one decimal digit and every other
    character stands for itself. *)
Definition is_field_letter (a : ascii) : bool :=
  existsb (Ascii.eqb a) ["Y"; "M"; "D"; "H"; "S"; "m"]%char.

Fixpoint has_form (pattern s : string) : bool :=
  match pattern, s with
  | EmptyString, EmptyString => true
  | String p pattern', String a s' =>
      (if is_field_letter p then is_digit a else Ascii.eqb a p)
      && has_form pattern' s'
  | _, _ => false
  end.

(** [k] times the character [letter]. *)
Fixpoint letters (k : nat) (letter : ascii) : string :=
  match k with
  | O => EmptyString
  | S k' => String letter (letters k' letter)
  end.

(** [digits k s]: [s] is made of exactly [k] decimal digits. *)
Fixpoint digits (k : nat) (s : string) : bool :=
  match k, s with
  | O, EmptyString => true
  | S k', String a s' => is_digit a && digits k' s'
  | _, _ => false
  end.

(* ===================================================================== *)
(** * Dates *)
(* ===================================================================== *)

(** A time value broken down into its UTC calendar fields, as
    [toISOString] reads it. *)
Module Date.

Record t : Type := {
  year : Z;
  month : nat;        (* 1 .. 12 *)
  day : nat;          (* 1 .. 31 *)
  hours : nat;        (* 0 .. 23 *)
  minutes : nat;      (* 0 .. 59 *)
  seconds : nat;      (* 0 .. 59 *)
  milliseconds : nat  (* 0 .. 999 *)
}.

Definition valid (d : t) : Prop :=
  (1 <= month d <= 12)%nat /\ (1 <= day d <= 31)%nat /\
  (hours d < 24)%nat /\ (minutes d < 60)%nat /\ (seconds d < 60)%nat /\
  (milliseconds d < 1000)%nat.

Definition pad (width n : nat) : string := padStart0 width (pretty n).

(** The year: four digits from 0 to 9999, otherwise a sign and six
    digits (the expanded years of the date-time string format). *)
Definition year_string (y : Z) : string :=
  if (0 <=? y)%Z && (y <=? 9999)%Z then pad 4 (Z.to_nat y)
  else (if (y <? 0)%Z then "-" else "+") +:+ pad 6 (Z.abs_nat y).

(** [d.toISOString()]: [YYYY-MM-DDTHH:mm:ss.sssZ]. *)
Definition toISOString (d : t) : string :=
  year_string (year d) +:+ "-" +:+ pad 2 (month d) +:+ "-" +:+
  pad 2 (day d) +:+ "T" +:+ pad 2 (hours d) +:+ ":" +:+
  pad 2 (minutes d) +:+ ":" +:+ pad 2 (seconds d) +:+ "." +:+
  pad 3 (milliseconds d) +:+ "Z".

End Date.

(** [const benchmarkDateTime =
      new Date().toISOString().replace(/:/g, '-').replace(/\./g, '-')] *)
Definition benchmarkDateTime (now : Date.t) : string :=
  replace_all "." "-" (replace_all ":" "-" (Date.toISOString now)).

(** [`./results/benchmark-${benchmarkDateTime}.md`] *)
Definition reportPath (now : Date.t) : string :=
  "./results/benchmark-" +:+ benchmarkDateTime now +:+ ".md".

(* ===================================================================== *)
(** * Exceptions and outcomes *)
(* ===================================================================== *)

(** A thrown value: the name of its class and its message. *)
Record exn : Type := { exn_name : string; exn_message : string }.

Definition Error (msg : string) : exn :=
  {| exn_name := "Error"; exn_message := msg |}.
Definition TypeError (msg : string) : exn :=
  {| exn_name := "TypeError"; exn_message := msg |}.

Inductive outcome (A : Type) : Type :=
| Returned (a : A)
| Thrown (e : exn).
Arguments Returned {A} a.
Arguments Thrown {A} e.

(* ===================================================================== *)
(** * The prompt template of the client library *)
(* ===================================================================== *)

(** [ChatPromptTemplate.fromTemplate(input)] reads [input] as an f-string
    template and [.invoke({})] formats it with no bindings.  The parser
    below is the one the library runs: [{{] and [}}] are literal braces,
    [{name}] is an input variable, and a lone brace is an error.  The
    bindings are a plain object: the library asks [name in values], which
    also holds for the names that every object inherits. *)
Module Template.

Inductive node : Type :=
| Literal (text : string)
| Var (name : string).

Definition is_bracket (bracket : list ascii) (c : ascii) : bool :=
  existsb (Ascii.eqb c) bracket.

(** [nextBracket(bracket, start)]: the characters before the first one of
    [bracket], and the characters from it on; [None] for [-1]. *)
Fixpoint nextBracket (bracket : list ascii) (chars : list ascii)
  : option (list ascii * list ascii) :=
  match chars with
  | [] => None
  | c :: rest =>
      if is_bracket bracket c then Some ([], chars)
      else match nextBracket bracket rest with
           | Some (before, from) => Some (c :: before, from)
           | None => None
           end
  end.

Definition text_of (chars : list ascii) : string := string_of_list_ascii chars.

(** No character of [chars] is a brace. *)
Definition brace_free (chars : list ascii) : bool :=
  forallb (fun c => negb (is_bracket ["{"; "}"]%char c)) chars.

Definition inspect {A : Type} (a : A) : {b : A | a = b} := exist _ a eq_refl.

Definition push (n : node) (r : outcome (list node)) : outcome (list node) :=
  match r with
  | Returned nodes => Returned (n :: nodes)
  | Thrown e => Thrown e
  end.

Definition open_brace : ascii := "{"%char.
Definition close_brace : ascii := "}"%char.

(** The [while (i < chars.length)] loop of [parseFString], on the
    characters from position [i] on. *)
Equations? parse (chars : list ascii) : outcome (list node)
  by wf (length chars) lt :=
parse [] := Returned [];
parse (c :: rest) with inspect (Ascii.eqb c open_brace), inspect (Ascii.eqb c close_brace) := {
  | exist _ true _, _ with rest := {
      | c' :: rest' with inspect (Ascii.eqb c' open_brace) := {
          | exist _ true _ => push (Literal "{") (parse rest')
          | exist _ false _
              with inspect (nextBracket [close_brace] (c :: c' :: rest')) := {
              | exist _ None _ => Thrown (Error "Unclosed '{' in template.")
              | exist _ (Some (before, from)) _ =>
                  push (Var (text_of (tail before))) (parse (tail from)) } }
      | [] => Thrown (Error "Unclosed '{' in template.") }
  | exist _ false _, exist _ true _ with rest := {
      | c' :: rest' with inspect (Ascii.eqb c' close_brace) := {
          | exist _ true _ => push (Literal "}") (parse rest')
          | exist _ false _ => Thrown (Error "Single '}' in template.") }
      | [] => Thrown (Error "Single '}' in template.") }
  | exist _ false _, exist _ false Hc
      with inspect (nextBracket [open_brace; close_brace] (c :: rest)) := {
      | exist _ None _ => Returned [Literal (text_of (c :: rest))]
      | exist _ (Some (before, from)) Hn =>
          push (Literal (text_of before)) (parse from) } }.
Proof.
  all: assert (forall bracket chars before' from',
                  nextBracket bracket chars = Some (before', from') ->
                  length from' <= length chars /\
                  length (tail from') < length chars)%nat as Hlen
    by (intros bracket chars; induction chars as [|a chars IH];
        intros before' from'; simpl; [discriminate|];
        destruct (is_bracket bracket a);
        [ intros [= <- <-]; simpl; lia
        | destruct (nextBracket bracket chars) as [[b f]|]; [|discriminate];
          intros [= <- <-]; destruct (IH _ _ eq_refl); lia ]).
  - destruct (Hlen [close_brace] (c :: c' :: rest') before from e1) as [_ Ht].
    simpl in Ht. lia.
  - simpl in Hn. unfold is_bracket in Hn. simpl in Hn. rewrite e, Hc in Hn.
    simpl in Hn.
    destruct (nextBracket _ rest) as [[b f]|] eqn:E; [|discriminate].
    injection Hn as <- <-. destruct (Hlen _ _ _ _ E) as [Hl _]. simpl. lia.
Qed.

(** [parseFString(template)], on [template.split("")]. *)
Definition parseFString (template : string) : outcome (list node) :=
  parse (list_ascii_of_string template).

(** The input variables of a parsed template, in order. *)
Definition inputVariables (nodes : list node) : list string :=
  omap (fun n => match n with Var name => Some name | Literal _ => None end) nodes.

(** The property names of [Object.prototype], which every plain object
    inherits. *)
Definition object_prototype : list string :=
  [ "constructor"; "__defineGetter__"; "__defineSetter__"; "hasOwnProperty";
    "__lookupGetter__"; "__lookupSetter__"; "isPrototypeOf";
    "propertyIsEnumerable"; "toString"; "valueOf"; "__proto__";
    "toLocaleString" ].

Definition inherits (name : string) : bool :=
  existsb (String.eqb name) object_prototype.

(** [name in values], where [values] holds the own properties of a plain
    object. *)
Definition has (values : gmap string string) (name : string) : bool :=
  match values !! name with
  | Some _ => true
  | None => inherits name
  end.

(** An inherited property in a string concatenation: the prototype
    object itself for [__proto__], a built-in function for the others. *)
Definition print_inherited (name : string) : string :=
  if String.eqb name "__proto__" then "[object Object]"
  else if String.eqb name "constructor" then "function Object() { [native code] }"
  else "function " +:+ name +:+ "() { [native code] }".

(** [values[name]] in a string concatenation. *)
Definition get (values : gmap string string) (name : string) : string :=
  match values !! name with
  | Some value => value
  | None => if inherits name then print_inherited name else "undefined"
  end.

(** [interpolateFString]: the text of the template under [values]. *)
Definition interpolate (nodes : list node) (values : gmap string string) : string :=
  foldl (fun res n =>
           match n with
           | Literal text => res +:+ text
           | Var name => res +:+ get values name
           end) "" nodes.

(** Formatting the one human message of the template: every input
    variable must be [in] the bindings, in the order of the template. *)
Definition formatMessages (nodes : list node) (values : gmap string string)
  : outcome string :=
  match List.find (fun name => negb (has values name)) (inputVariables nodes) with
  | Some name =>
      Thrown (Error ("Missing value for input variable `" +:+ name +:+ "`"))
  | None => Returned (interpolate nodes values)
  end.

(** [ChatPromptTemplate.fromTemplate(input)] followed by
    [.invoke(values)]: the text of the message sent to the model. *)
Definition format (input : string) (values : gmap string string)
  : outcome string :=
  match parseFString input with
  | Returned nodes => formatMessages nodes values
  | Thrown e => Thrown e
  end.

End Template.

(* ===================================================================== *)
(** * Messages and results *)
(* ===================================================================== *)

(** [usage_metadata] of a reply. *)
Record UsageMetadata : Type := {
  input_tokens : number;
  output_tokens : number;
  total_tokens : number
}.

(** The reply of the chat model: the fields the script reads.
    [usage_metadata] may be absent. *)
Record AIMessage : Type := {
  content : string;
  total_duration : jsval;             (* response_metadata.total_duration *)
  usage_metadata : option UsageMetadata
}.

(** The record returned by the prober, one per prompt. *)
Module TestResult.
Record t : Type := {
  query : string;
  model : string;
  tokensPerSecond : number;
  response : string;
  elapsedTime : number;
  inputTokens : number;
  outputTokens : number;
  totalTokens : number
}.
End TestResult.

(** The constants [runBenchmark] computes from the results before it
    renders the summary. *)
Module Summary.
Record t : Type := {
  totalTime : number;
  totalInputTokens : number;
  totalOutputTokens : number;
  totalTokens : number;
  averageTime : number;
  averageInputTokens : number;
  averageOutputTokens : number;
  averageTotalTokens : number;
  averageTokensPerSecond : number
}.
End Summary.

(** [l.reduce(f, init)]. *)
Definition reduce {A B : Type} (f : B -> A -> B) (init : B) (l : list A) : B :=
  foldl f init l.

(** Lines 95 to 104 of the source. *)
Definition summarize (results : list TestResult.t) : Summary.t :=
  let totalTime :=
    reduce (fun acc r => Num.add acc (TestResult.elapsedTime r)) Num.zero results in
  let totalInputTokens :=
    reduce (fun acc r => Num.add acc (TestResult.inputTokens r)) Num.zero results in
  let totalOutputTokens :=
    reduce (fun acc r => Num.add acc (TestResult.outputTokens r)) Num.zero results in
  let totalTokens :=
    reduce (fun acc r => Num.add acc (TestResult.totalTokens r)) Num.zero results in
  let averageTime := Num.div totalTime (Num.of_nat (length results)) in
  let averageInputTokens := Num.div totalInputTokens (Num.of_nat (length results)) in
  let averageOutputTokens := Num.div totalOutputTokens (Num.of_nat (length results)) in
  let averageTotalTokens := Num.div totalTokens (Num.of_nat (length results)) in
  let averageTokensPerSecond :=
    Num.div
      (reduce (fun acc r => Num.add acc (TestResult.tokensPerSecond r)) Num.zero results)
      (Num.of_nat (length results)) in
  {| Summary.totalTime := totalTime;
     Summary.totalInputTokens := totalInputTokens;
     Summary.totalOutputTokens := totalOutputTokens;
     Summary.totalTokens := totalTokens;
     Summary.averageTime := averageTime;
     Summary.averageInputTokens := averageInputTokens;
     Summary.averageOutputTokens := averageOutputTokens;
     Summary.averageTotalTokens := averageTotalTokens;
     Summary.averageTokensPerSecond := averageTokensPerSecond |}.

(** ** The words of the specification, for comparison

    The sum of a sequence of numbers taken in order: the sum of the empty
    sequence is zero, and the sum of a sequence extended by [x] is the sum
    of the sequence plus [x]. *)
Fixpoint sum_rev (reversed : list number) : number :=
  match reversed with
  | [] => Num.zero
  | x :: before => Num.add (sum_rev before) x
  end.

Definition sum_of (xs : list number) : number := sum_rev (rev xs).

(** The sum of a list of integers. *)
Definition Zsum (ns : list Z) : Z := foldr Z.add 0%Z ns.

(** The arithmetic mean: the sum divided by the count. *)
Definition mean_of (xs : list number) : number :=
  Num.div (sum_of xs) (Num.of_nat (length xs)).

(* ===================================================================== *)
(** * Report templates *)
(* ===================================================================== *)

Definition nl : string := String "010"%char "".
Definition tab : string := String "009"%char "".

Section Templates.

Variable fmt : NumberFormat.

(** [`${x}`] and [`${x.toFixed(2)}`] for a number [x]. *)
Definition str (x : number) : string := toString fmt x.
Definition fixed2 (x : number) : string := toFixed fmt x 2.

(** [`| ${i + 1}. ${test} |`] *)
Definition promptRow (i : nat) (test : string) : string :=
  "| " +:+ pretty (i + 1)%nat +:+ ". " +:+ test +:+ " |".

(** The template literal of lines 106 to 126; [model] stands for
    [results[0].model] and [count] for [results.length]. *)
Definition summaryTemplate (tests : list string) (model : string)
    (count : nat) (sm : Summary.t) : string :=
  " # Ollama Benchmark" +:+ nl +:+
  tab +:+ nl +:+
  "## Summary" +:+ nl +:+
  "| **Metric**             | **Value**                         |" +:+ nl +:+
  "|------------------------|-----------------------------------|" +:+ nl +:+
  "| **Model**                     | " +:+ model +:+ "                       |" +:+ nl +:+
  "| **Total Tests**              | " +:+ pretty count +:+ "                         |" +:+ nl +:+
  "| **Total Time**               | " +:+ fixed2 (Summary.totalTime sm) +:+ "s                 |" +:+ nl +:+
  "| **Total Prompt Tokens**      | " +:+ str (Summary.totalInputTokens sm) +:+ "                       |" +:+ nl +:+
  "| **Total Response Tokens**    | " +:+ str (Summary.totalOutputTokens sm) +:+ "                      |" +:+ nl +:+
  "| **Total Tokens**             | " +:+ str (Summary.totalTokens sm) +:+ "                            |" +:+ nl +:+
  "| **Average Time**             | " +:+ fixed2 (Summary.averageTime sm) +:+ "s                |" +:+ nl +:+
  "| **Average Prompt Tokens**    | " +:+ str (Summary.averageInputTokens sm) +:+ "                     |" +:+ nl +:+
  "| **Average Response Tokens**  | " +:+ str (Summary.averageOutputTokens sm) +:+ "                    |" +:+ nl +:+
  "| **Average Tokens**           | " +:+ str (Summary.averageTotalTokens sm) +:+ "                     |" +:+ nl +:+
  "| **Score**                    | " +:+ fixed2 (Summary.averageTokensPerSecond sm) +:+ " tokens/s |" +:+ nl +:+
  nl +:+
  "| **Test Prompts**            |" +:+ nl +:+
  "|------------------------------|" +:+ nl +:+
  join nl (imap promptRow tests) +:+ nl.

(** The template literal of lines 136 to 151, for the result at index
    [i]. *)
Definition testTemplate (i : nat) (result : TestResult.t) : string :=
  "## Test " +:+ pretty (i + 1)%nat +:+ nl +:+
  nl +:+
  "| **Metric**             | **Value**                         |" +:+ nl +:+
  "|------------------------|-----------------------------------|" +:+ nl +:+
  "| **Time**               | " +:+ fixed2 (TestResult.elapsedTime result) +:+ "s        |" +:+ nl +:+
  "| **Prompt Tokens**       | " +:+ str (TestResult.inputTokens result) +:+ "                    |" +:+ nl +:+
  "| **Response Tokens**     | " +:+ str (TestResult.outputTokens result) +:+ "                   |" +:+ nl +:+
  "| **Tokens Total**        | " +:+ str (TestResult.totalTokens result) +:+ "                    |" +:+ nl +:+
  "| **Score**               | " +:+ fixed2 (TestResult.tokensPerSecond result) +:+ " tokens/s |" +:+ nl +:+
  nl +:+
  "### **Prompt**" +:+ nl +:+
  TestResult.query result +:+ nl +:+
  nl +:+
  "### **Response**" +:+ nl +:+
  TestResult.response result +:+ nl.

End Templates.

(* ===================================================================== *)
(** * The host: clock, model server, file system, console *)
(* ===================================================================== *)

(** What the script does to the outside world, in the order it does it. *)
Inductive event : Type :=
| EvLog (message : string)                  (* console.log *)
| EvInvoke (baseUrl model text : string)    (* one request to the model *)
| EvWrite (path data : string).             (* writeFile, flag 'a' *)

(** The outside world, with state [W].  A request to the model and an
    appending write may each fail, and each may change the world. *)
Record Host (W : Type) : Type := {
  host_now : W -> Date.t;
  host_invoke : string -> string -> string -> W -> outcome AIMessage * W;
  host_append : string -> string -> W -> outcome unit * W
}.
Arguments host_now {W} _ _.
Arguments host_invoke {W} _ _ _ _ _.
Arguments host_append {W} _ _ _ _.

Record state (W : Type) : Type := { world : W; trace : list event }.
Arguments world {W} _.
Arguments trace {W} _.

(** The requests and the writes of a trace, in order. *)
Definition invocations (evs : list event) : list (string * string * string) :=
  omap (fun ev => match ev with
                  | EvInvoke baseUrl model text => Some (baseUrl, model, text)
                  | _ => None
                  end) evs.

Definition writes (evs : list event) : list (string * string) :=
  omap (fun ev => match ev with
                  | EvWrite path data => Some (path, data)
                  | _ => None
                  end) evs.

Section Script.

Context {W : Type}.
Variable host : Host W.
Variable fmt : NumberFormat.

(** An asynchronous computation that is awaited at once: it runs on the
    state, and either returns a value or throws. *)
Definition M (A : Type) : Type := state W -> outcome A * state W.

#[local] Instance M_ret : MRet M := fun A a s => (Returned a, s).

#[local] Instance M_bind : MBind M := fun A B f m s =>
  match m s with
  | (Returned a, s') => f a s'
  | (Thrown e, s') => (Thrown e, s')
  end.

Definition throw {A : Type} (e : exn) : M A := fun s => (Thrown e, s).

Definition lift {A : Type} (o : outcome A) : M A := fun s => (o, s).

Definition emit (ev : event) (s : state W) : state W :=
  {| world := world s; trace := (trace s ++ [ev])%list |}.

Definition console_log (message : string) : M unit :=
  fun s => (Returned (), emit (EvLog message) s).

Definition new_Date : M Date.t :=
  fun s => (Returned (host_now host (world s)), s).

(** [await promp.pipe(llm).invoke({})], once the prompt is formatted. *)
Definition invoke (baseUrl model text : string) : M AIMessage :=
  fun s =>
    let '(r, w) := host_invoke host baseUrl model text (world s) in
    (r, {| world := w; trace := (trace s ++ [EvInvoke baseUrl model text])%list |}).

(** [await writeFile(path, data, { flag: 'a' })] *)
Definition writeFile (path data : string) : M unit :=
  fun s =>
    let '(r, w) := host_append host path data (world s) in
    (r, {| world := w; trace := (trace s ++ [EvWrite path data])%list |}).

(* =================================================================== *)
(** * The single-request prober *)
(* =================================================================== *)

(** The record built from a reply (lines 37 to 56); destructuring an
    absent [usage_metadata] throws. *)
Definition toResult (input model : string) (msg : AIMessage)
  : outcome TestResult.t :=
  match usage_metadata msg with
  | None =>
      Thrown (TypeError "Cannot destructure property 'output_tokens' of 'usage_metadata' as it is undefined.")
  | Some usage =>
      let totalDurationSeconds := Num.div (to_number (total_duration msg)) Num._1e9 in
      let tokensPerSecond := Num.div (total_tokens usage) totalDurationSeconds in
      let elapsedTime := totalDurationSeconds in
      let inputTokens := input_tokens usage in
      let outputTokens := output_tokens usage in
      let totalTokens := total_tokens usage in
      Returned {| TestResult.query := input;
                  TestResult.model := model;
                  TestResult.tokensPerSecond := tokensPerSecond;
                  TestResult.response := content msg;
                  TestResult.elapsedTime := elapsedTime;
                  TestResult.inputTokens := inputTokens;
                  TestResult.outputTokens := outputTokens;
                  TestResult.totalTokens := totalTokens |}
  end.

Definition benchmarkOllamaWithLangchain (input model baseUrl : string)
  : M TestResult.t :=
  text ← lift (Template.format input ∅);
  msg ← invoke baseUrl model text;
  lift (toResult input model msg).

(* =================================================================== *)
(** * The run coordinator *)
(* =================================================================== *)

(** [for (const [i, test] of tests.entries())], lines 79 to 84: [n] is
    [tests.length], [i] the index of the first prompt of [tests] and
    [results] the results pushed so far. *)
Fixpoint run_tests (model baseUrl : string) (n i : nat) (tests : list string)
    (results : list TestResult.t) : M (list TestResult.t) :=
  match tests with
  | [] => mret results
  | test :: rest =>
      console_log ("🏃‍ Running test " +:+ pretty (i + 1)%nat +:+ "/" +:+ pretty n);;
      result ← benchmarkOllamaWithLangchain test model baseUrl;
      let results := (results ++ [result])%list in
      console_log ("✅ Test " +:+ pretty (i + 1)%nat +:+ "/" +:+ pretty n +:+ " completed");;
      run_tests model baseUrl n (S i) rest results
  end.

(** [for (const [i, result] of results.entries())], lines 133 to 153. *)
Fixpoint write_tests (path : string) (i : nat) (results : list TestResult.t)
  : M unit :=
  match results with
  | [] => mret ()
  | result :: rest =>
      writeFile path (testTemplate fmt i result);;
      write_tests path (S i) rest
  end.

(** The warm-up call and the measured calls, lines 73 to 84. *)
Definition measure (tests : list string) (model baseUrl : string)
  : M (list TestResult.t) :=
  console_log "🔥 Heating up...";;
  _ ← benchmarkOllamaWithLangchain "Hello" model baseUrl;
  console_log "⛏️ Heating done, starting benchmark...";;
  run_tests model baseUrl (length tests) 0 tests [].

(** The summary and the per-test sections, lines 86 to 156. *)
Definition report (path : string) (tests : list string)
    (results : list TestResult.t) : M unit :=
  console_log "🏁 Benchmark completed";;
  console_log "📝 Saving results to file...";;
  let sm := summarize results in
  first ← match results !! 0%nat with
          | Some r => mret r
          | None => throw (TypeError "Cannot read properties of undefined (reading 'model')")
          end;
  let summary := summaryTemplate fmt tests (TestResult.model first) (length results) sm in
  writeFile path summary;;
  write_tests path 0 results;;
  console_log ("📄 Results saved to File: " +:+ path);;
  console_log "🎉 Benchmark completed successfully".

Definition runBenchmark (tests : list string) (model baseUrl : string) : M unit :=
  now ← new_Date;
  results ← measure tests model baseUrl;
  report (reportPath now) tests results.

End Script.

(* ===================================================================== *)
(** * Describing a run *)
(* ===================================================================== *)

Section Runs.

Context {W : Type}.
Variable host : Host W.
Variable fmt : NumberFormat.

(** [sent baseUrl model test request]: [request] is the request the
    prober issues for the prompt [test]. *)
Definition sent (baseUrl model test : string)
    (request : string * string * string) : Prop :=
  exists text, Template.format test ∅ = Returned text /\
               request = (baseUrl, model, text).

(** [answers model baseUrl w tests results w']: starting in the world
    [w], the prompts [tests] are sent one after the other, each in the
    world the previous request left behind; every request is answered,
    [results] are the records built from the answers, in order, and [w']
    is the world after the last answer. *)
Inductive answers (model baseUrl : string)
  : W -> list string -> list TestResult.t -> W -> Prop :=
| answers_nil w : answers model baseUrl w [] [] w
| answers_cons w test text msg w1 result tests results w2 :
    Template.format test ∅ = Returned text ->
    host_invoke host baseUrl model text w = (Returned msg, w1) ->
    toResult test model msg = Returned result ->
    answers model baseUrl w1 tests results w2 ->
    answers model baseUrl w (test :: tests) (result :: results) w2.

(** [throws model baseUrl w test e]: the prober call for the prompt
    [test], issued in the world [w], fails with [e]: the prompt does not
    format, or the request fails, or its answer has no usage metadata. *)
Definition throws (model baseUrl : string) (w : W) (test : string) (e : exn)
  : Prop :=
  Template.format test ∅ = Thrown e \/
  exists text, Template.format test ∅ = Returned text /\
    match host_invoke host baseUrl model text w with
    | (Returned msg, _) => toResult test model msg = Thrown e
    | (Thrown e', _) => e' = e
    end.

(** [fails model baseUrl w tests e]: when the prompts [tests] are sent
    one after the other from the world [w], one of the prober calls
    fails with [e], the calls before it having been answered. *)
Inductive fails (model baseUrl : string) : W -> list string -> exn -> Prop :=
| fails_here w test tests e :
    throws model baseUrl w test e ->
    fails model baseUrl w (test :: tests) e
| fails_later w test text msg w1 result tests e :
    Template.format test ∅ = Returned text ->
    host_invoke host baseUrl model text w = (Returned msg, w1) ->
    toResult test model msg = Returned result ->
    fails model baseUrl w1 tests e ->
    fails model baseUrl w (test :: tests) e.

(** The writes of a complete report: the summary, then one section per
    result, in order, all to the same path. *)
Definition report_writes (path : string) (tests : list string)
    (model : string) (results : list TestResult.t) (sm : Summary.t)
  : list (string * string) :=
  (path, summaryTemplate fmt tests model (length results) sm)
    :: imap (fun i result => (path, testTemplate fmt i result)) results.

(** The writes of the per-test sections from index [i] on. *)
Definition sections (path : string) (i : nat) (results : list TestResult.t)
  : list (string * string) :=
  imap (fun j result => (path, testTemplate fmt (i + j)%nat result)) results.

Definition write_event (w : string * string) : event := EvWrite w.1 w.2.

(** The events of a run that starts in [s] and ends in [s']. *)
Definition events_of (s s' : state W) (evs : list event) : Prop :=
  trace s' = (trace s ++ evs)%list.

End Runs.

(* ===================================================================== *)
(** * The events of a complete run *)
(* ===================================================================== *)

Section RunEvents.

Variable fmt : NumberFormat.

(** The events of the measured call for the prompt at index [i] of [n],
    sent as [text] (lines 80 to 83). *)
Definition test_events (baseUrl model : string) (n i : nat) (text : string)
  : list event :=
  [ EvLog ("🏃‍ Running test " +:+ pretty (i + 1)%nat +:+ "/" +:+ pretty n);
    EvInvoke baseUrl model text;
    EvLog ("✅ Test " +:+ pretty (i + 1)%nat +:+ "/" +:+ pretty n +:+ " completed") ].

(** All the events of a run that completes, in order: [texts] are the
    prompts as sent and [results] the recorded results. *)
Definition run_events (path : string) (tests : list string)
    (model baseUrl : string) (texts : list string)
    (results : list TestResult.t) : list event :=
  ([ EvLog "🔥 Heating up...";
     EvInvoke baseUrl model "Hello";
     EvLog "⛏️ Heating done, starting benchmark..." ]
   ++ concat (imap (test_events baseUrl model (length tests)) texts)
   ++ [ EvLog "🏁 Benchmark completed";
        EvLog "📝 Saving results to file..." ]
   ++ map write_event
        (report_writes fmt path tests model results (summarize results))
   ++ [ EvLog ("📄 Results saved to File: " +:+ path);
        EvLog "🎉 Benchmark completed successfully" ])%list.

End RunEvents.

(* ===================================================================== *)
(** * Reading a report path back *)
(* ===================================================================== *)

(** The value of a decimal numeral, read from the left. *)
Fixpoint read_digits (acc : nat) (s : string) : nat :=
  match s with
  | EmptyString => acc
  | String a rest => read_digits (10 * acc + (nat_of_ascii a - 48)) rest
  end.

Definition read_nat (s : string) : nat := read_digits 0 s.

(** The start time that a timestamp [YYYY-MM-DDTHH-MM-SS-mmmZ] spells. *)
Definition read_timestamp (ts : string) : Date.t :=
  {| Date.year := Z.of_nat (read_nat (substring 0 4 ts));
     Date.month := read_nat (substring 5 2 ts);
     Date.day := read_nat (substring 8 2 ts);
     Date.hours := read_nat (substring 11 2 ts);
     Date.minutes := read_nat (substring 14 2 ts);
     Date.seconds := read_nat (substring 17 2 ts);
     Date.milliseconds := read_nat (substring 20 3 ts) |}.

(** The start time that a report path spells, after the 20 characters of
    [./results/benchmark-]. *)
Definition report_start (path : string) : Date.t :=
  read_timestamp (substring 20 24 path).

(* ===================================================================== *)
(** * A concrete host for the examples *)
(* ===================================================================== *)

Module Mock.

(** [floor (m * 2^e + 1/2)] for [m >= 0]: the integer nearest to
    [m * 2^e], the larger one on a tie. *)
Definition round_half_up (m e : Z) : Z :=
  match e with
  | Zneg p => ((2 * m + 2 ^ Zpos p) / (2 * 2 ^ Zpos p))%Z
  | _ => (m * 2 ^ e)%Z
  end.

(** The decimal digits of [n] with a point before the last [digits]. *)
Definition point (n : Z) (digits : nat) : string :=
  let s := padStart0 (digits + 1) (pretty (Z.to_N n)) in
  let whole := String.length s - digits in
  substring 0 whole s +:+
  (if digits is O then "" else "." +:+ substring whole digits s).

(** The decimal expansion of [m * 2^e], which is finite. *)
Definition expansion (m e : Z) : string :=
  match e with
  | Zneg p =>
      let k := Pos.to_nat p in
      let n := (m * 5 ^ Zpos p)%Z in
      if (m mod 2 ^ Zpos p =? 0)%Z then pretty (Z.to_N (m / 2 ^ Zpos p))
      else point n k
  | _ => pretty (Z.to_N (m * 2 ^ e))
  end.

(** [String(x)]: as the language prints it when [x] is an integer below
    [1e21], a zero, an infinity or [NaN]; for the other values, their
    full decimal expansion. *)
Definition print (x : number) : string :=
  match x with
  | S754_nan => "NaN"
  | S754_infinity s => (if s then "-" else "") +:+ "Infinity"
  | S754_zero _ => "0"
  | S754_finite s m e => (if s then "-" else "") +:+ expansion (Zpos m) e
  end.

(** [x.toFixed(digits)]: the nearest decimal with [digits] digits after
    the point, the larger one on a tie; values from [1e21] on are printed
    by [print]. *)
Definition print_fixed (x : number) (digits : nat) : string :=
  match x with
  | S754_finite s m e =>
      let scaled := round_half_up (Zpos m * 10 ^ Z.of_nat digits) e in
      if (10 ^ (21 + Z.of_nat digits) <=? scaled)%Z then print x
      else (if s then "-" else "") +:+ point scaled digits
  | S754_zero _ => point 0 digits
  | _ => print x
  end.

Definition fmt : NumberFormat := {| toString := print; toFixed := print_fixed |}.

(** A host whose world is the files on disk, by path: a fixed clock, a
    model server that answers by the text of the prompt, and a file
    system on which appending succeeds. *)
Definition host (clock : Date.t) (server : string -> outcome AIMessage)
  : Host (gmap string string) :=
  {| host_now := fun _ => clock;
     host_invoke := fun _ _ text w => (server text, w);
     host_append := fun path data w =>
       (Returned (), <[path := default "" (w !! path) +:+ data]> w) |}.

Definition clock : Date.t :=
  {| Date.year := 2024; Date.month := 5; Date.day := 17;
     Date.hours := 9; Date.minutes := 30; Date.seconds := 15;
     Date.milliseconds := 42 |}.

(** The reply of the scenario: [{content: "4", totalDuration:
    2_000_000_000, inputTokens: 5, outputTokens: 1, totalTokens: 6}]. *)
Definition reply : AIMessage :=
  {| content := "4";
     total_duration := JsNumber (Num.of_Z 2000000000);
     usage_metadata := Some {| input_tokens := Num.of_Z 5;
                               output_tokens := Num.of_Z 1;
                               total_tokens := Num.of_Z 6 |} |}.

Definition server (text : string) : outcome AIMessage := Returned reply.

(** A server that answers the warm-up prompt and nothing else. *)
Definition warm_only (text : string) : outcome AIMessage :=
  if String.eqb text "Hello" then Returned reply else Thrown (TypeError "fetch failed").

Definition init : state (gmap string string) := {| world := ∅; trace := [] |}.

(** The run of the scenario: one prompt, one model, the server above. *)
Definition tests : list string := ["2+2=?"].
Definition model : string := "test-model".
Definition baseUrl : string := "http://localhost:11434".

Definition run : outcome unit * state (gmap string string) :=
  runBenchmark (host clock server) fmt tests model baseUrl init.

(** The single prober call of the scenario, and its result. *)
Definition probe : outcome TestResult.t * state (gmap string string) :=
  benchmarkOllamaWithLangchain (host clock server) "2+2=?" model baseUrl init.

Definition result : TestResult.t :=
  {| TestResult.query := "2+2=?"; TestResult.model := model;
     TestResult.tokensPerSecond := Num.of_Z 3; TestResult.response := "4";
     TestResult.elapsedTime := Num.of_Z 2; TestResult.inputTokens := Num.of_Z 5;
     TestResult.outputTokens := Num.of_Z 1; TestResult.totalTokens := Num.of_Z 6 |}.

(** A run on two prompts against the server that answers the warm-up
    only, and a run on no prompt. *)
Definition failing_run : outcome unit * state (gmap string string) :=
  runBenchmark (host clock warm_only) fmt ["a"; "b"] model baseUrl init.

Definition empty_run : outcome unit * state (gmap string string) :=
  runBenchmark (host clock server) fmt [] model baseUrl init.

(** Two results with different token counts and durations: 6 tokens in
    2 seconds and 3 tokens in 3 seconds. *)
Definition uneven : list TestResult.t :=
  [ {| TestResult.query := "a"; TestResult.model := model;
       TestResult.tokensPerSecond := Num.of_Z 3; TestResult.response := "x";
       TestResult.elapsedTime := Num.of_Z 2; TestResult.inputTokens := Num.of_Z 5;
       TestResult.outputTokens := Num.of_Z 1; TestResult.totalTokens := Num.of_Z 6 |};
    {| TestResult.query := "b"; TestResult.model := model;
       TestResult.tokensPerSecond := Num.of_Z 1; TestResult.response := "y";
       TestResult.elapsedTime := Num.of_Z 3; TestResult.inputTokens := Num.of_Z 2;
       TestResult.outputTokens := Num.of_Z 1; TestResult.totalTokens := Num.of_Z 3 |} ].

End Mock.

(* ===================================================================== *)
(** * The configuration of the script *)
(* ===================================================================== *)

(** Lines 161 to 183. *)
Module Config.

Definition tests : list string :=
  [ "Explain the principle of **conservation of energy** and provide examples of its application in everyday life.";
    "What were the causes and consequences of the **French Revolution**?";
    "Solve the following quadratic equation: (2x^2 - 4x - 6 = 0). Show all steps.";
    "Analyze the main theme and symbolism in the poem 'The Song of the Pirate' by **José de Espronceda**.";
    "Describe how **blockchain** works and mention some of its applications in the modern world.";
    "Explain the benefits and risks of **intermittent fasting**. Is it suitable for everyone?";
    "Compare and contrast **utilitarianism** and **deontology** in ethical decision-making.";
    "Describe the traditions and customs of a specific cultural celebration, such as **Day of the Dead** in Mexico.";
    "What is **attachment theory** and how does it influence the emotional development of children?";
    "List and describe the main **biomes of the world**, including their characteristics and examples.";
    "Explain the difference between **inflation** and **deflation**, and their effects on a country's economy.";
    "Analyze the impact of **Impressionism** on contemporary art. Name some of its key figures.";
    "Describe **quantum theory** and how it has changed our understanding of the universe.";
    "Explain the basic principles of **criminal law** and its implications in society.";
    "What is the function of **DNA** in living organisms? Describe its structure and role in inheritance.";
    "What are **black holes** and how do they form? Explain their significance in the universe.";
    "Analyze the concept of **social mobility** and its different types. What factors influence it?";
    "Describe the differences between a **language** and a **dialect**. Provide examples.";
    "What are the advantages and disadvantages of **online learning** compared to traditional education?";
    "Explain the phenomenon of **global warming** and its possible consequences for the planet." ].

Definition model : string := "gemma2:2b".
Definition baseUrl : string := "http://localhost:11434".

End Config.

(* ===================================================================== *)
(** * More replies and runs for the examples *)
(* ===================================================================== *)

Module Cases.

Definition usage : UsageMetadata :=
  {| input_tokens := Num.of_Z 5;
     output_tokens := Num.of_Z 1;
     total_tokens := Num.of_Z 6 |}.

(** A reply without [total_duration], and one that took no time. *)
Definition no_duration : AIMessage :=
  {| content := "4"; total_duration := JsUndefined; usage_metadata := Some usage |}.

Definition zero_duration : AIMessage :=
  {| content := "4"; total_duration := JsNumber (Num.of_Z 0);
     usage_metadata := Some usage |}.

(** The record of the reply without [total_duration]. *)
Definition unmeasured : TestResult.t :=
  {| TestResult.query := "2+2=?"; TestResult.model := Mock.model;
     TestResult.tokensPerSecond := Num.NaN; TestResult.response := "4";
     TestResult.elapsedTime := Num.NaN; TestResult.inputTokens := Num.of_Z 5;
     TestResult.outputTokens := Num.of_Z 1; TestResult.totalTokens := Num.of_Z 6 |}.

(** The record of the warm-up call of the scenario. *)
Definition warm_up : TestResult.t :=
  {| TestResult.query := "Hello"; TestResult.model := Mock.model;
     TestResult.tokensPerSecond := Num.of_Z 3; TestResult.response := "4";
     TestResult.elapsedTime := Num.of_Z 2; TestResult.inputTokens := Num.of_Z 5;
     TestResult.outputTokens := Num.of_Z 1; TestResult.totalTokens := Num.of_Z 6 |}.

(** The millisecond after the clock of the scenario. *)
Definition next_millisecond : Date.t :=
  {| Date.year := 2024; Date.month := 5; Date.day := 17;
     Date.hours := 9; Date.minutes := 30; Date.seconds := 15;
     Date.milliseconds := 43 |}.

(** The run of the shipped configuration against the server of the
    scenario. *)
Definition shipped_run : outcome unit * state (gmap string string) :=
  runBenchmark (Mock.host Mock.clock Mock.server) Mock.fmt
    Config.tests Config.model Config.baseUrl Mock.init.

End Cases.


(* ===================================================================== *)
(** * Properties of the script *)
(* ===================================================================== *)

Local Open Scope list_scope.

#[local] Existing Instances M_ret M_bind.

Section Integers.

(** ** Sums of integers are exact

    Token counts are integers.  Below [2^53] the binary64 sum of two
    non-negative integers is their sum, so that a total of token counts
    is the integer total. *)

Local Open Scope Z_scope.

Lemma iter_xO p n : Zpos (Pos.iter xO p n) = Zpos p * 2 ^ Zpos n.
Proof.
  induction n as [|n IH] using Pos.peano_ind.
  - simpl. lia.
  - rewrite Pos.iter_succ, Pos2Z.inj_xO, IH, Pos2Z.inj_succ, Z.pow_succ_r by lia. ring.
Qed.

Lemma digits2_log2 p : Zpos (digits2_pos p) = Z.log2 (Zpos p) + 1.
Proof.
  induction p as [p IH|p IH|]; simpl digits2_pos.
  - rewrite Pos2Z.inj_succ, IH. rewrite Pos2Z.inj_xI, Z.log2_succ_double by lia. lia.
  - rewrite Pos2Z.inj_succ, IH. rewrite Pos2Z.inj_xO, Z.log2_double by lia. lia.
  - reflexivity.
Qed.

Lemma shr_1_double m :
  shr_1 {| shr_m := 2 * m; shr_r := false; shr_s := false |}
  = {| shr_m := m; shr_r := false; shr_s := false |}.
Proof. destruct m as [|p|p]; reflexivity. Qed.

Lemma pow2_xI n : 2 ^ Zpos n~1 = 2 * (2 ^ Zpos n * 2 ^ Zpos n).
Proof.
  change (Zpos n~1) with (2 * Zpos n + 1).
  replace (2 * Z.pos n + 1) with (1 + Z.pos n + Z.pos n) by lia.
  rewrite !Z.pow_add_r by lia. rewrite Z.pow_1_r. ring.
Qed.

Lemma pow2_xO n : 2 ^ Zpos n~0 = 2 ^ Zpos n * 2 ^ Zpos n.
Proof.
  change (Zpos n~0) with (2 * Zpos n).
  replace (2 * Z.pos n) with (Z.pos n + Z.pos n) by lia.
  apply Z.pow_add_r; lia.
Qed.

Lemma iter_shr_1 n : forall m,
  SpecFloat.iter_pos shr_1 n {| shr_m := m * 2 ^ Zpos n; shr_r := false; shr_s := false |}
  = {| shr_m := m; shr_r := false; shr_s := false |}.
Proof.
  induction n as [n IH|n IH|]; intros m.
  - change (SpecFloat.iter_pos shr_1 n~1 ?x) with (SpecFloat.iter_pos shr_1 n (SpecFloat.iter_pos shr_1 n (shr_1 x))).
    rewrite pow2_xI.
    replace (m * (2 * (2 ^ Z.pos n * 2 ^ Z.pos n))) with (2 * ((m * 2 ^ Zpos n) * 2 ^ Zpos n)) by ring.
    rewrite shr_1_double, IH, IH. reflexivity.
  - change (SpecFloat.iter_pos shr_1 n~0 ?x) with (SpecFloat.iter_pos shr_1 n (SpecFloat.iter_pos shr_1 n x)).
    rewrite pow2_xO, Z.mul_assoc, IH, IH. reflexivity.
  - change (SpecFloat.iter_pos shr_1 1 ?x) with (shr_1 x).
    replace (m * 2 ^ 1) with (2 * m) by (rewrite Z.pow_1_r; ring). apply shr_1_double.
Qed.

Lemma shr_fexp_canonical m e :
  Zpos (digits2_pos m) = Num.prec -> -1074 <= e ->
  shr_fexp Num.prec Num.emax (Zpos m) e loc_Exact
  = ({| shr_m := Zpos m; shr_r := false; shr_s := false |}, e).
Proof.
  intros Hd He. unfold shr_fexp.
  replace (fexp Num.prec Num.emax (Zdigits2 (Zpos m) + e) - e) with 0; [reflexivity|].
  unfold fexp, emin, Zdigits2. rewrite Hd. unfold Num.prec, Num.emax. lia.
Qed.

(** A mantissa of exactly [Num.prec] digits with an exponent in range is kept as it is. *)
Lemma binary_round_aux_canonical s m e :
  Zpos (digits2_pos m) = Num.prec -> -1074 <= e <= 971 ->
  binary_round_aux Num.prec Num.emax s (Zpos m) e loc_Exact = S754_finite s m e.
Proof.
  intros Hd He. unfold binary_round_aux.
  rewrite shr_fexp_canonical by (assumption || lia).
  cbn [shr_m loc_of_shr_record round_nearest_even].
  rewrite shr_fexp_canonical by (assumption || lia).
  cbn [shr_m].
  replace (e <=? Num.emax - Num.prec) with true; [reflexivity|].
  symmetry. apply Z.leb_le. unfold Num.emax, Num.prec. lia.
Qed.

Lemma normalize_exact z k :
  0 < z < 2 ^ Num.prec -> 0 <= k ->
  binary_normalize Num.prec Num.emax (z * 2 ^ k) (- k) false = Num.exact z.
Proof.
  intros Hz Hk. unfold Num.prec in *.
  assert (0 < 2 ^ k) as Hpow by (apply Z.pow_pos_nonneg; lia).
  assert (0 <= Z.log2 z < 53) as Hlog.
  { split; [apply Z.log2_nonneg|]. apply Z.log2_lt_pow2; lia. }
  destruct (z * 2 ^ k) as [|m|m] eqn:Em; try lia.
  assert (Zpos (digits2_pos m) = Z.log2 z + 1 + k) as Hdm.
  { rewrite digits2_log2, <- Em, Z.log2_mul_pow2 by lia. lia. }
  unfold binary_normalize, binary_round, shl_align, fexp, emin, Num.emax, Num.prec.
  rewrite Hdm.
  replace (Z.max (Z.log2 z + 1 + k + - k - 53) (3 - 1024 - 53)) with (Z.log2 z + 1 - 53) by lia.
  destruct (Z.log2 z + 1 - 53 - - k) as [|n|n] eqn:En.
  - (* the mantissa already has 53 digits *)
    replace (- k) with (Z.log2 z + 1 - 53) by lia.
    rewrite (binary_round_aux_canonical false m) by (unfold Num.prec; lia).
    unfold Num.exact, Num.prec. f_equal. replace (53 - (Z.log2 z + 1)) with k by lia.
    rewrite Em. reflexivity.
  - (* too many digits: the low ones are zero and are shifted out *)
    assert (0 < z * 2 ^ (k - Zpos n)) as Hpos
        by (apply Z.mul_pos_pos; [lia | apply Z.pow_pos_nonneg; lia]).
    destruct (z * 2 ^ (k - Zpos n)) as [|m'|m'] eqn:Em'; try lia.
    assert (Zpos (digits2_pos m') = 53) as Hdm'.
    { rewrite digits2_log2, <- Em', Z.log2_mul_pow2 by lia. lia. }
    assert (Zpos m = Zpos m' * 2 ^ Zpos n) as Hm.
    { rewrite <- Em, <- Em', <- Z.mul_assoc, <- Z.pow_add_r by lia.
      replace (k - Zpos n + Zpos n) with k by lia. reflexivity. }
    assert (shr_fexp 53 1024 (Zpos m) (- k) loc_Exact
            = ({| shr_m := Zpos m'; shr_r := false; shr_s := false |}, - k + Zpos n))
      as Hfirst.
    { unfold shr_fexp.
      replace (fexp 53 1024 (Zdigits2 (Zpos m) + - k) - - k) with (Zpos n)
        by (unfold fexp, emin, Zdigits2; rewrite Hdm; lia).
      unfold shr. cbn [shr_record_of_loc]. rewrite Hm, iter_shr_1. reflexivity. }
    unfold binary_round_aux. rewrite Hfirst.
    cbn [shr_m loc_of_shr_record round_nearest_even].
    rewrite (shr_fexp_canonical m') by (unfold Num.prec; lia).
    cbn [shr_m].
    replace (- k + Zpos n <=? 1024 - 53) with true by (symmetry; apply Z.leb_le; lia).
    unfold Num.exact, Num.prec.
    replace (53 - (Z.log2 z + 1)) with (k - Zpos n) by lia.
    replace (Z.log2 z + 1 - 53) with (- k + Zpos n) by lia.
    rewrite Em'. reflexivity.
  - (* too few digits: the mantissa is shifted left *)
    assert (Zpos (Pos.iter xO m n) = z * 2 ^ (53 - (Z.log2 z + 1))) as Hshift.
    { rewrite iter_xO, <- Em, <- Z.mul_assoc, <- Z.pow_add_r by lia. f_equal. f_equal. lia. }
    rewrite binary_round_aux_canonical.
    + unfold Num.exact, Num.prec. f_equal. rewrite <- Hshift. reflexivity.
    + rewrite digits2_log2, Hshift, Z.log2_mul_pow2 by lia. unfold Num.prec. lia.
    + lia.
Qed.

Lemma of_Z_exact z : 0 < z < 2 ^ Num.prec -> Num.of_Z z = Num.exact z.
Proof.
  intros Hz. unfold Num.of_Z. rewrite <- (normalize_exact z 0) by lia.
  rewrite Z.mul_1_r. reflexivity.
Qed.

Lemma shl_align_value m e e' :
  e' <= e -> Zpos (fst (shl_align m e e')) = Zpos m * 2 ^ (e - e').
Proof.
  intros He. unfold shl_align. destruct (e' - e) as [|d|d] eqn:Ed; try lia.
  - replace (e - e') with 0 by lia. simpl fst. lia.
  - simpl fst. rewrite iter_xO. f_equal. f_equal. lia.
Qed.

Lemma exact_mantissa z :
  0 < z < 2 ^ Num.prec ->
  Zpos (Z.to_pos (z * 2 ^ (Num.prec - (Z.log2 z + 1)))) = z * 2 ^ (Num.prec - (Z.log2 z + 1)).
Proof.
  intros Hz. apply Z2Pos.id. apply Z.mul_pos_pos; [lia|].
  apply Z.pow_pos_nonneg; [lia|].
  assert (Z.log2 z < Num.prec) by (apply Z.log2_lt_pow2; lia). lia.
Qed.

Lemma add_finite ma ea mb eb :
  Num.add (S754_finite false ma ea) (S754_finite false mb eb) =
  binary_normalize Num.prec Num.emax
    (Zpos (fst (shl_align ma ea (Z.min ea eb)))
     + Zpos (fst (shl_align mb eb (Z.min ea eb))))
    (Z.min ea eb) false.
Proof. reflexivity. Qed.

Lemma add_exact a b :
  0 < a -> 0 < b -> a + b < 2 ^ Num.prec ->
  Num.add (Num.exact a) (Num.exact b) = Num.exact (a + b).
Proof.
  intros Ha Hb Hab.
  assert (0 <= Z.log2 a < Num.prec /\ 0 <= Z.log2 b < Num.prec) as [Hla Hlb].
  { split; (split; [apply Z.log2_nonneg | apply Z.log2_lt_pow2; lia]). }
  set (ea := Z.log2 a + 1 - Num.prec). set (eb := Z.log2 b + 1 - Num.prec).
  transitivity (binary_normalize Num.prec Num.emax
                  ((a + b) * 2 ^ (- Z.min ea eb)) (- - Z.min ea eb) false);
    [|apply normalize_exact; lia].
  unfold Num.exact. fold ea eb. rewrite add_finite.
  rewrite !shl_align_value by lia.
  rewrite !exact_mantissa by lia.
  rewrite Z.opp_involutive. f_equal.
  rewrite <- !Z.mul_assoc, <- !Z.pow_add_r by lia.
  replace (Num.prec - (Z.log2 a + 1) + (ea - Z.min ea eb)) with (- Z.min ea eb) by lia.
  replace (Num.prec - (Z.log2 b + 1) + (eb - Z.min ea eb)) with (- Z.min ea eb) by lia.
  ring.
Qed.

Lemma add_of_Z a b :
  0 <= a -> 0 <= b -> a + b < 2 ^ Num.prec ->
  Num.add (Num.of_Z a) (Num.of_Z b) = Num.of_Z (a + b).
Proof.
  intros Ha Hb Hab.
  destruct (Z.eq_dec a 0) as [->|Ha']; [|destruct (Z.eq_dec b 0) as [->|Hb']].
  - rewrite Z.add_0_l. change (Num.of_Z 0) with (S754_zero false).
    destruct (Z.eq_dec b 0) as [->|Hb']; [reflexivity|].
    rewrite (of_Z_exact b) by lia. reflexivity.
  - rewrite Z.add_0_r. change (Num.of_Z 0) with (S754_zero false).
    rewrite (of_Z_exact a) by lia. reflexivity.
  - rewrite (of_Z_exact a), (of_Z_exact b), (of_Z_exact (a + b)) by lia.
    apply add_exact; lia.
Qed.

Lemma Zsum_app ns n : Zsum (ns ++ [n]) = Zsum ns + n.
Proof.
  unfold Zsum. induction ns as [|m ns IH]; simpl; [lia|]. rewrite IH. lia.
Qed.

Lemma Zsum_nonneg ns : Forall (fun n => 0 <= n) ns -> 0 <= Zsum ns.
Proof. unfold Zsum. induction 1; simpl; lia. Qed.

(** The sum of the numbers of non-negative integers whose total is below
    [2^53] is the number of their total. *)
Lemma sum_of_integers ns :
  Forall (fun n => 0 <= n) ns -> Zsum ns < 2 ^ 53 ->
  sum_of (map Num.of_Z ns) = Num.of_Z (Zsum ns).
Proof.
  unfold sum_of. induction ns as [|n ns IH] using rev_ind; [reflexivity|].
  intros Hall Hsum. apply Forall_app in Hall as [Hns Hn].
  apply Forall_inv in Hn. rewrite Zsum_app in *.
  pose proof (Zsum_nonneg ns Hns) as Hpos.
  rewrite map_app, rev_app_distr. simpl. rewrite IH by (assumption || lia).
  apply add_of_Z; (assumption || exact Hsum).
Qed.

End Integers.

Section Timestamp.

Lemma replace_all_app c d s1 s2 :
  replace_all c d (s1 +:+ s2) = replace_all c d s1 +:+ replace_all c d s2.
Proof. induction s1 as [|a s1 IH]; simpl; [|rewrite IH]; reflexivity. Qed.

Lemma contains_replace_all c d s :
  Ascii.eqb d c = false -> contains c (replace_all c d s) = false.
Proof.
  intros Hd. induction s as [|a s IH]; simpl; [reflexivity|].
  rewrite IH, orb_false_r. destruct (Ascii.eqb a c) eqn:E; assumption.
Qed.

Lemma contains_replace_other c c' d s :
  Ascii.eqb d c = false -> contains c s = false ->
  contains c (replace_all c' d s) = false.
Proof.
  intros Hd. induction s as [|a s IH]; simpl; [reflexivity|].
  intros [Ha Hs]%orb_false_iff. rewrite (IH Hs), orb_false_r.
  destruct (Ascii.eqb a c'); assumption.
Qed.

Lemma digit_not_separator a :
  is_digit a = true ->
  Ascii.eqb a ":" = false /\ Ascii.eqb a "." = false.
Proof.
  destruct a as [[] [] [] [] [] [] [] []]; cbv; intros H;
    try discriminate H; split; reflexivity.
Qed.

Lemma replace_digits k s :
  digits k s = true ->
  replace_all ":" "-" s = s /\ replace_all "." "-" s = s.
Proof.
  revert s. induction k as [|k IH]; intros [|a s]; simpl; try discriminate.
  - split; reflexivity.
  - intros [Ha Hs]%andb_true_iff.
    destruct (digit_not_separator a Ha) as [-> ->].
    destruct (IH s Hs) as [-> ->]. split; reflexivity.
Qed.

Lemma has_form_digits k letter s pattern' s' :
  is_field_letter letter = true ->
  digits k s = true ->
  has_form pattern' s' = true ->
  has_form (letters k letter +:+ pattern') (s +:+ s') = true.
Proof.
  intros Hl. revert s. induction k as [|k IH]; intros [|a s]; simpl; try discriminate.
  - auto.
  - intros [Ha Hs]%andb_true_iff Hrest. rewrite Hl, Ha. simpl. auto.
Qed.

(** Padded to [k] digits, a number below [10^k] has exactly [k] digits;
    checked on every such number. *)
Lemma pad_digits k n :
  (1 <= k <= 4)%nat -> (n < 10 ^ k)%nat -> digits k (Date.pad k n) = true.
Proof.
  intros Hk Hn.
  assert (forallb (fun k => forallb (fun n => digits k (Date.pad k n))
                               (seq 0 (10 ^ k))) (seq 1 4) = true) as Hall
      by (vm_compute; reflexivity).
  rewrite forallb_forall in Hall.
  specialize (Hall k). rewrite forallb_forall in Hall.
  apply Hall; apply in_seq; lia.
Qed.

(** The timestamp of a date with a four-digit year, spelled out. *)
Lemma benchmarkDateTime_fields now :
  Date.valid now -> (0 <= Date.year now <= 9999)%Z ->
  benchmarkDateTime now =
  Date.pad 4 (Z.to_nat (Date.year now)) +:+ "-" +:+
  Date.pad 2 (Date.month now) +:+ "-" +:+ Date.pad 2 (Date.day now) +:+ "T" +:+
  Date.pad 2 (Date.hours now) +:+ "-" +:+ Date.pad 2 (Date.minutes now) +:+ "-" +:+
  Date.pad 2 (Date.seconds now) +:+ "-" +:+ Date.pad 3 (Date.milliseconds now) +:+ "Z".
Proof.
  intros (HM & HD & Hh & Hm & Hs & Hms) Hy.
  unfold benchmarkDateTime, Date.toISOString, Date.year_string.
  replace ((0 <=? Date.year now)%Z && (Date.year now <=? 9999)%Z) with true
    by (symmetry; apply andb_true_iff; split; apply Z.leb_le; lia).
  rewrite !replace_all_app.
  destruct (replace_digits 4 (Date.pad 4 (Z.to_nat (Date.year now)))) as [-> ->];
    [apply pad_digits; simpl; lia|].
  destruct (replace_digits 2 (Date.pad 2 (Date.month now))) as [-> ->];
    [apply pad_digits; simpl; lia|].
  destruct (replace_digits 2 (Date.pad 2 (Date.day now))) as [-> ->];
    [apply pad_digits; simpl; lia|].
  destruct (replace_digits 2 (Date.pad 2 (Date.hours now))) as [-> ->];
    [apply pad_digits; simpl; lia|].
  destruct (replace_digits 2 (Date.pad 2 (Date.minutes now))) as [-> ->];
    [apply pad_digits; simpl; lia|].
  destruct (replace_digits 2 (Date.pad 2 (Date.seconds now))) as [-> ->];
    [apply pad_digits; simpl; lia|].
  destruct (replace_digits 3 (Date.pad 3 (Date.milliseconds now))) as [-> ->];
    [apply pad_digits; simpl; lia|].
  reflexivity.
Qed.

Lemma benchmarkDateTime_form now :
  Date.valid now -> (0 <= Date.year now <= 9999)%Z ->
  has_form "YYYY-MM-DDTHH-MM-SS-mmmZ" (benchmarkDateTime now) = true.
Proof.
  intros Hvalid Hy. rewrite benchmarkDateTime_fields by assumption.
  destruct Hvalid as (HM & HD & Hh & Hm & Hs & Hms).
  apply (has_form_digits 4 "Y" _ "-MM-DDTHH-MM-SS-mmmZ");
    [reflexivity | apply pad_digits; simpl; lia |].
  apply (has_form_digits 2 "M" _ "-DDTHH-MM-SS-mmmZ");
    [reflexivity | apply pad_digits; simpl; lia |].
  apply (has_form_digits 2 "D" _ "THH-MM-SS-mmmZ");
    [reflexivity | apply pad_digits; simpl; lia |].
  apply (has_form_digits 2 "H" _ "-MM-SS-mmmZ");
    [reflexivity | apply pad_digits; simpl; lia |].
  apply (has_form_digits 2 "M" _ "-SS-mmmZ");
    [reflexivity | apply pad_digits; simpl; lia |].
  apply (has_form_digits 2 "S" _ "-mmmZ");
    [reflexivity | apply pad_digits; simpl; lia |].
  apply (has_form_digits 3 "m" _ "Z");
    [reflexivity | apply pad_digits; simpl; lia |].
  reflexivity.
Qed.

Lemma benchmarkDateTime_no_separator now :
  contains ":" (benchmarkDateTime now) = false /\
  contains "." (benchmarkDateTime now) = false.
Proof.
  unfold benchmarkDateTime. split.
  - apply contains_replace_other; [reflexivity|].
    apply contains_replace_all. reflexivity.
  - apply contains_replace_all. reflexivity.
Qed.

End Timestamp.

Section Prober.

Context {W : Type}.
Variable host : Host W.

(** The prober, spelled out: a template that does not format throws
    before any request; otherwise one request is issued and its answer
    decides the outcome. *)
Lemma prober_unfold input model baseUrl (s : state W) :
  benchmarkOllamaWithLangchain host input model baseUrl s =
  match Template.format input ∅ with
  | Thrown e => (Thrown e, s)
  | Returned text =>
      let '(r, w) := host_invoke host baseUrl model text (world s) in
      (match r with
       | Returned msg => toResult input model msg
       | Thrown e => Thrown e
       end,
       {| world := w; trace := trace s ++ [EvInvoke baseUrl model text] |})
  end.
Proof.
  unfold benchmarkOllamaWithLangchain, mbind, M_bind, lift, invoke.
  destruct (Template.format input ∅) as [text|e]; [|reflexivity].
  destruct (host_invoke host baseUrl model text (world s)) as [[msg|e] w];
    reflexivity.
Qed.

(** A prober call adds at most one event, a request. *)
Lemma prober_events input model baseUrl (s : state W) r s' :
  benchmarkOllamaWithLangchain host input model baseUrl s = (r, s') ->
  (s' = s /\ exists e, r = Thrown e /\ Template.format input ∅ = Thrown e) \/
  (exists text, Template.format input ∅ = Returned text /\
     trace s' = trace s ++ [EvInvoke baseUrl model text] /\
     exists o, host_invoke host baseUrl model text (world s) = (o, world s') /\
       r = match o with
           | Returned msg => toResult input model msg
           | Thrown e => Thrown e
           end).
Proof.
  rewrite prober_unfold.
  destruct (Template.format input ∅) as [text|e].
  - destruct (host_invoke host baseUrl model text (world s)) as [o w] eqn:E.
    intros [= <- <-]. right. exists text. repeat split. exists o. split; auto.
  - intros [= <- <-]. left. eauto.
Qed.

Lemma toResult_query input model msg result :
  toResult input model msg = Returned result ->
  TestResult.query result = input /\ TestResult.model result = model.
Proof.
  unfold toResult. destruct (usage_metadata msg); [|discriminate].
  intros [= <-]. split; reflexivity.
Qed.

Lemma format_Hello : Template.format "Hello" ∅ = Returned "Hello".
Proof. reflexivity. Qed.

(** ** Prompts are templates *)

(** The parser, one step at a time. *)
Lemma parse_unfold chars :
  Template.parse chars =
  match chars with
  | [] => Returned []
  | c :: rest =>
      if Ascii.eqb c Template.open_brace then
        match rest with
        | [] => Thrown (Error "Unclosed '{' in template.")
        | c' :: rest' =>
            if Ascii.eqb c' Template.open_brace
            then Template.push (Template.Literal "{") (Template.parse rest')
            else match Template.nextBracket [Template.close_brace] (c :: rest) with
                 | None => Thrown (Error "Unclosed '{' in template.")
                 | Some (before, from) =>
                     Template.push (Template.Var (Template.text_of (tail before)))
                       (Template.parse (tail from))
                 end
        end
      else if Ascii.eqb c Template.close_brace then
        match rest with
        | [] => Thrown (Error "Single '}' in template.")
        | c' :: rest' =>
            if Ascii.eqb c' Template.close_brace
            then Template.push (Template.Literal "}") (Template.parse rest')
            else Thrown (Error "Single '}' in template.")
        end
      else match Template.nextBracket [Template.open_brace; Template.close_brace]
                   (c :: rest) with
           | None => Returned [Template.Literal (Template.text_of (c :: rest))]
           | Some (before, from) =>
               Template.push (Template.Literal (Template.text_of before))
                 (Template.parse from)
           end
  end.
Proof.
  funelim (Template.parse chars); try reflexivity;
    repeat match goal with
           | H : Ascii.eqb _ _ = _ |- _ => rewrite H
           | H : Template.nextBracket _ _ = _ |- _ => rewrite H
           end; reflexivity.
Qed.

Lemma nextBracket_skip bracket before c rest :
  forallb (fun a => negb (Template.is_bracket bracket a)) before = true ->
  Template.is_bracket bracket c = true ->
  Template.nextBracket bracket (before ++ c :: rest) = Some (before, c :: rest).
Proof.
  intros Hfree Hc. induction before as [|a before IH]; simpl.
  - rewrite Hc. reflexivity.
  - simpl in Hfree. apply andb_true_iff in Hfree as [Ha Hfree].
    apply negb_true_iff in Ha. rewrite Ha, (IH Hfree). reflexivity.
Qed.

Lemma brace_free_weaken chars :
  Template.brace_free chars = true ->
  forallb (fun a => negb (Template.is_bracket [Template.close_brace] a)) chars = true.
Proof.
  unfold Template.brace_free. rewrite !forallb_forall.
  intros Hfree a Hin. specialize (Hfree a Hin).
  unfold Template.is_bracket, Template.close_brace in *. simpl in *.
  destruct (Ascii.eqb a "}"); [|reflexivity].
  destruct (Ascii.eqb a "{"); discriminate.
Qed.

Lemma brace_free_head c chars :
  Template.brace_free (c :: chars) = true ->
  Ascii.eqb c Template.open_brace = false /\ Ascii.eqb c Template.close_brace = false.
Proof.
  unfold Template.brace_free, Template.is_bracket, Template.open_brace,
    Template.close_brace. simpl.
  destruct (Ascii.eqb c "{"), (Ascii.eqb c "}"); simpl; intros H;
    try discriminate H; split; reflexivity.
Qed.

(** A placeholder at the start of the text is read as an input
    variable. *)
Lemma parse_placeholder name post :
  Template.brace_free name = true ->
  Template.parse (Template.open_brace :: name ++ Template.close_brace :: post) =
  Template.push (Template.Var (Template.text_of name)) (Template.parse post).
Proof.
  intros Hfree. rewrite parse_unfold.
  change (Ascii.eqb Template.open_brace Template.open_brace) with true. cbv iota.
  pose proof (nextBracket_skip [Template.close_brace] (Template.open_brace :: name)
                Template.close_brace post) as Hnext.
  simpl app in Hnext. rewrite Hnext;
    [| simpl; apply brace_free_weaken; exact Hfree | reflexivity].
  destruct name as [|c' name]; simpl; [reflexivity|].
  destruct (brace_free_head _ _ Hfree) as [-> _]. reflexivity.
Qed.

(** Text without braces before a brace is read as a literal. *)
Lemma parse_literal c before rest :
  Template.brace_free (c :: before) = true ->
  Template.parse ((c :: before) ++ Template.open_brace :: rest) =
  Template.push (Template.Literal (Template.text_of (c :: before)))
    (Template.parse (Template.open_brace :: rest)).
Proof.
  intros Hfree. rewrite parse_unfold.
  pose proof (nextBracket_skip [Template.open_brace; Template.close_brace]
                (c :: before) Template.open_brace rest Hfree eq_refl) as Hnext.
  simpl app in *. cbv beta iota. rewrite Hnext.
  destruct (brace_free_head _ _ Hfree) as [-> ->]. reflexivity.
Qed.

Lemma list_ascii_of_string_app s1 s2 :
  list_ascii_of_string (s1 +:+ s2) = list_ascii_of_string s1 ++ list_ascii_of_string s2.
Proof. induction s1 as [|a s1 IH]; simpl; [|rewrite IH]; reflexivity. Qed.

(** A prompt that holds a placeholder after text without braces: the
    parser reads the placeholder as an input variable, or it rejects
    what follows. *)
Lemma placeholder_is_input_variable before name after :
  Template.brace_free (list_ascii_of_string before) = true ->
  Template.brace_free (list_ascii_of_string name) = true ->
  (exists e, Template.parseFString (before +:+ "{" +:+ name +:+ "}" +:+ after) = Thrown e) \/
  (exists nodes,
     Template.parseFString (before +:+ "{" +:+ name +:+ "}" +:+ after) = Returned nodes /\
     In (Template.Var name) nodes).
Proof.
  intros Hbefore Hname. unfold Template.parseFString.
  rewrite !list_ascii_of_string_app. simpl app.
  change (list_ascii_of_string "{") with [Template.open_brace].
  change (list_ascii_of_string "}") with [Template.close_brace]. simpl app.
  assert (Template.text_of (list_ascii_of_string name) = name) as Htext
      by apply string_of_list_ascii_of_string.
  destruct (list_ascii_of_string before) as [|c chars].
  - simpl app. rewrite parse_placeholder, Htext by exact Hname.
    destruct (Template.parse (list_ascii_of_string after)) as [nodes|e]; simpl;
      [right; eexists; split; [reflexivity | left; reflexivity] | left; eauto].
  - rewrite parse_literal, parse_placeholder, Htext by assumption.
    destruct (Template.parse (list_ascii_of_string after)) as [nodes|e]; simpl;
      [right; eexists; split; [reflexivity | right; left; reflexivity] | left; eauto].
Qed.

Lemma formatMessages_unbound nodes name :
  In (Template.Var name) nodes ->
  Template.inherits name = false ->
  exists first,
    Template.formatMessages nodes ∅ =
    Thrown (Error ("Missing value for input variable `" +:+ first +:+ "`")).
Proof.
  intros Hin Hown. unfold Template.formatMessages.
  destruct (List.find _ (Template.inputVariables nodes)) as [first|] eqn:E;
    [eauto|].
  assert (In name (Template.inputVariables nodes)) as Hname.
  { unfold Template.inputVariables. apply list_elem_of_In, list_elem_of_omap.
    exists (Template.Var name). split; [apply list_elem_of_In; exact Hin | reflexivity]. }
  pose proof (List.find_none _ _ E name Hname) as Hnone. simpl in Hnone.
  unfold Template.has in Hnone. rewrite lookup_empty, Hown in Hnone. discriminate.
Qed.

(** C10, amended. The prompt is read as a template: the text of the
    request, if there is one, is the prompt formatted with no bindings,
    which is not always the prompt itself.  And for every prompt whose
    template has a placeholder that no object inherits, such as "{x}",
    the prober call fails, before any request, instead of returning a
    result; so it does for every prompt that holds such a placeholder
    after text without braces. *)
Theorem unbound_placeholder_fails input model baseUrl (s : state W) nodes name :
  Template.parseFString input = Returned nodes ->
  In (Template.Var name) nodes ->
  Template.inherits name = false ->
  (exists e, benchmarkOllamaWithLangchain host input model baseUrl s = (Thrown e, s)) /\
  (forall input' r s' text,
     benchmarkOllamaWithLangchain host input' model baseUrl s = (r, s') ->
     In (EvInvoke baseUrl model text) (drop (length (trace s)) (trace s')) ->
     Template.format input' ∅ = Returned text) /\
  Template.format "{{x}}" ∅ = Returned "{x}" /\
  (forall before name' after,
     Template.brace_free (list_ascii_of_string before) = true ->
     Template.brace_free (list_ascii_of_string name') = true ->
     Template.inherits name' = false ->
     exists e,
       benchmarkOllamaWithLangchain host
         (before +:+ "{" +:+ name' +:+ "}" +:+ after) model baseUrl s = (Thrown e, s)).
Proof.
  intros Hparse Hin Hown. split; [|split; [|split]].
  - rewrite prober_unfold. unfold Template.format. rewrite Hparse.
    destruct (formatMessages_unbound nodes name Hin Hown) as (first & ->). eauto.
  - intros input' r s' text Hrun Hev.
    apply prober_events in Hrun as [[-> _]|(text' & Hf & Ht & _)].
    + rewrite drop_all in Hev. contradiction.
    + rewrite Ht, drop_app_length in Hev. destruct Hev as [[= <-]|[]].
      exact Hf.
  - reflexivity.
  - intros before name' after Hbefore Hname' Hown'. rewrite prober_unfold.
    unfold Template.format.
    destruct (placeholder_is_input_variable before name' after Hbefore Hname')
      as [(e & ->)|(nodes' & -> & Hin')]; [eauto|].
    destruct (formatMessages_unbound nodes' name' Hin' Hown') as (first & ->). eauto.
Qed.

End Prober.

Section Coordinator.

Context {W : Type}.
Variable host : Host W.
Variable fmt : NumberFormat.

Implicit Types (s : state W) (tests : list string)
  (results : list TestResult.t) (evs : list event).

Lemma invocations_app evs1 evs2 :
  invocations (evs1 ++ evs2) = invocations evs1 ++ invocations evs2.
Proof. apply omap_app. Qed.

Lemma writes_app evs1 evs2 : writes (evs1 ++ evs2) = writes evs1 ++ writes evs2.
Proof. apply omap_app. Qed.

(** One iteration of the measuring loop. *)
Lemma run_tests_cons model baseUrl n i test rest results s :
  run_tests host model baseUrl n i (test :: rest) results s =
  match benchmarkOllamaWithLangchain host test model baseUrl
          (emit (EvLog ("🏃‍ Running test " +:+ pretty (i + 1)%nat +:+ "/" +:+ pretty n)) s) with
  | (Returned result, s1) =>
      run_tests host model baseUrl n (S i) rest (results ++ [result])
        (emit (EvLog ("✅ Test " +:+ pretty (i + 1)%nat +:+ "/" +:+ pretty n +:+ " completed")) s1)
  | (Thrown e, s1) => (Thrown e, s1)
  end.
Proof. reflexivity. Qed.

(** Whatever its outcome, the measuring loop writes nothing, and its
    requests are those of the first prompts, in order. *)
Lemma run_tests_trace model baseUrl n tests :
  forall i results s r s',
    run_tests host model baseUrl n i tests results s = (r, s') ->
    exists evs, events_of s s' evs /\ writes evs = [] /\
      exists k, Forall2 (sent baseUrl model) (take k tests) (invocations evs).
Proof.
  unfold events_of.
  induction tests as [|test rest IH]; intros i results s r s'.
  - simpl. intros [= <- <-]. exists []. rewrite app_nil_r.
    repeat split. exists 0%nat. constructor.
  - rewrite run_tests_cons.
    destruct (benchmarkOllamaWithLangchain _ _ _ _ _) as [[result|e] s1] eqn:E.
    + intros Hrec. apply IH in Hrec as (evs & Htr & Hw & k & Hk).
      apply prober_events in E as [[_ (e & [=] & _)]|(text & Hf & Ht & _)].
      simpl in Htr, Ht. rewrite Ht in Htr.
      eexists. split; [rewrite Htr, <- !app_assoc; reflexivity|].
      split.
      * rewrite !writes_app, Hw. reflexivity.
      * exists (S k). rewrite !invocations_app. simpl.
        constructor; [exists text; auto | exact Hk].
    + intros [= <- <-].
      apply prober_events in E as [[-> _]|(text & Hf & Ht & _)].
      * eexists. split; [reflexivity|]. split; [reflexivity|].
        exists 0%nat. constructor.
      * simpl in Ht. eexists. split; [rewrite Ht, <- app_assoc; reflexivity|].
        split; [reflexivity|]. exists 1%nat. simpl.
        constructor; [exists text; auto|]. rewrite take_0. constructor.
Qed.

(** When the measuring loop returns, every prompt was sent and answered,
    in order, and the results pushed are the records of the answers. *)
Lemma run_tests_returned model baseUrl n tests :
  forall i results s all s',
    run_tests host model baseUrl n i tests results s = (Returned all, s') ->
    exists new evs,
      all = results ++ new /\
      answers host model baseUrl (world s) tests new (world s') /\
      events_of s s' evs /\ writes evs = [] /\
      Forall2 (sent baseUrl model) tests (invocations evs).
Proof.
  unfold events_of.
  induction tests as [|test rest IH]; intros i results s all s'.
  - simpl. intros [= <- <-]. exists [], []. rewrite !app_nil_r.
    repeat split; constructor.
  - rewrite run_tests_cons.
    destruct (benchmarkOllamaWithLangchain _ _ _ _ _) as [[result|e] s1] eqn:E;
      [|discriminate].
    intros Hrec. apply IH in Hrec as (new & evs & -> & Hans & Htr & Hw & Hs).
    apply prober_events in E as [[_ (e & [=] & _)]|(text & Hf & Ht & o & Ho & Hr)].
    simpl in *. destruct o as [msg|e]; [|discriminate].
    exists (result :: new). eexists. rewrite <- app_assoc. split; [reflexivity|].
    split; [econstructor; eauto|].
    split; [rewrite Htr, Ht, <- !app_assoc; reflexivity|].
    split; [rewrite !writes_app, Hw; reflexivity|].
    rewrite !invocations_app. simpl. constructor; [exists text; auto | exact Hs].
Qed.

Lemma answers_queries model baseUrl w tests results w' :
  answers host model baseUrl w tests results w' ->
  map TestResult.query results = tests /\
  Forall (fun result => TestResult.model result = model) results.
Proof.
  induction 1 as [|w test text msg w1 result tests results w2 Hf Hi Hr _ [IHq IHm]];
    [split; constructor|].
  apply toResult_query in Hr as [Hq Hm]. simpl. rewrite Hq, IHq.
  split; [reflexivity | constructor; assumption].
Qed.

Lemma writes_write_events (ws : list (string * string)) :
  writes (map write_event ws) = ws.
Proof. induction ws as [|[p d] ws IH]; simpl; [|rewrite IH]; reflexivity. Qed.

Lemma invocations_write_events (ws : list (string * string)) :
  invocations (map write_event ws) = [].
Proof. induction ws as [|[p d] ws IH]; simpl; [|rewrite IH]; reflexivity. Qed.

Lemma sections_cons path i result results :
  sections fmt path i (result :: results) =
  (path, testTemplate fmt i result) :: sections fmt path (S i) results.
Proof.
  unfold sections. rewrite imap_cons, Nat.add_0_r. f_equal.
  apply imap_ext. intros j x _. simpl. f_equal. f_equal. lia.
Qed.

(** Whatever its outcome, the writing loop issues no request; its events
    are the writes of the first sections, in order; of all of them when
    it returns; and when it throws, the last one is the write that
    failed. *)
Lemma write_tests_trace path results :
  forall i s r s',
    write_tests host fmt path i results s = (r, s') ->
    exists k, events_of s s' (map write_event (take k (sections fmt path i results))) /\
      (r = Returned () -> take k (sections fmt path i results) = sections fmt path i results) /\
      (forall e, r = Thrown e ->
         exists pre data w,
           take k (sections fmt path i results) = pre ++ [(path, data)] /\
           host_append host path data w = (Thrown e, world s')).
Proof.
  unfold events_of.
  induction results as [|result rest IH]; intros i s r s'.
  - simpl. intros [= <- <-]. exists 0%nat. simpl. rewrite app_nil_r.
    split; [reflexivity|]. split; [reflexivity | discriminate].
  - rewrite sections_cons. simpl. unfold mbind, M_bind, writeFile.
    destruct (host_append host path _ (world s)) as [[[]|e] w] eqn:E.
    + intros Hrec. apply IH in Hrec as (k & Htr & Hret & Hthr). simpl in Htr.
      exists (S k). simpl. split; [rewrite Htr, <- app_assoc; reflexivity|].
      split.
      * intros Hr. rewrite (Hret Hr). reflexivity.
      * intros e Hr. destruct (Hthr e Hr) as (pre & data & w' & Hpre & Happ).
        exists ((path, testTemplate fmt i result) :: pre), data, w'.
        rewrite Hpre. split; [reflexivity | assumption].
    + intros [= <- <-]. exists 1%nat. simpl. rewrite take_0.
      split; [reflexivity|]. split; [discriminate|].
      intros e' [= <-]. exists [], (testTemplate fmt i result), (world s).
      split; [reflexivity | assumption].
Qed.

(** The warm-up call followed by the measuring loop. *)
Lemma measure_unfold tests model baseUrl s :
  measure host tests model baseUrl s =
  match benchmarkOllamaWithLangchain host "Hello" model baseUrl
          (emit (EvLog "🔥 Heating up...") s) with
  | (Returned _, s1) =>
      run_tests host model baseUrl (length tests) 0 tests []
        (emit (EvLog "⛏️ Heating done, starting benchmark...") s1)
  | (Thrown e, s1) => (Thrown e, s1)
  end.
Proof. reflexivity. Qed.

(** Whatever its outcome, the measuring phase writes nothing; its first
    request is the warm-up, and the requests after it are those of the
    first prompts, in order. *)
Lemma measure_trace tests model baseUrl s r s' :
  measure host tests model baseUrl s = (r, s') ->
  exists evs requests k,
    events_of s s' evs /\ writes evs = [] /\
    invocations evs = (baseUrl, model, "Hello") :: requests /\
    Forall2 (sent baseUrl model) (take k tests) requests.
Proof.
  unfold events_of. rewrite measure_unfold.
  destruct (benchmarkOllamaWithLangchain _ _ _ _ _) as [[r0|e] s1] eqn:E;
    (apply prober_events in E as [[_ (e' & _ & [=])]|(text & [= <-] & Ht & _)]);
    simpl in Ht.
  - intros Hrun. apply run_tests_trace in Hrun as (evs & Htr & Hw & k & Hk).
    unfold events_of in Htr. simpl in Htr. rewrite Ht in Htr.
    eexists. exists (invocations evs), k.
    split; [rewrite Htr, <- !app_assoc; reflexivity|].
    split; [rewrite !writes_app, Hw; reflexivity|].
    split; [|exact Hk]. rewrite !invocations_app. reflexivity.
  - intros [= <- <-]. eexists. exists [], 0%nat.
    split; [rewrite Ht, <- app_assoc; reflexivity|].
    split; [reflexivity|]. split; [reflexivity|]. constructor.
Qed.

(** When the measuring phase returns, the warm-up request was answered
    with a usable reply, which is dropped, and the results are the
    answers to the prompts, sent in order from the world the warm-up
    left behind. *)
Lemma measure_returned tests model baseUrl s results s' :
  measure host tests model baseUrl s = (Returned results, s') ->
  exists msg0 w1 r0 evs requests,
    host_invoke host baseUrl model "Hello" (world s) = (Returned msg0, w1) /\
    toResult "Hello" model msg0 = Returned r0 /\
    answers host model baseUrl w1 tests results (world s') /\
    events_of s s' evs /\ writes evs = [] /\
    invocations evs = (baseUrl, model, "Hello") :: requests /\
    Forall2 (sent baseUrl model) tests requests.
Proof.
  unfold events_of. rewrite measure_unfold.
  destruct (benchmarkOllamaWithLangchain _ _ _ _ _) as [[r0|e] s1] eqn:E;
    [|discriminate].
  apply prober_events in E as [[_ (e' & _ & [=])]|(text & [= <-] & Ht & o & Ho & Hr)].
  simpl in Ht, Ho. destruct o as [msg0|e]; [|discriminate].
  intros Hrun. apply run_tests_returned in Hrun as (new & evs & -> & Hans & Htr & Hw & Hs).
  unfold events_of in Htr. simpl in Htr, Hans. rewrite Ht in Htr.
  exists msg0, (world s1), r0. eexists. exists (invocations evs).
  split; [exact Ho|]. split; [symmetry; exact Hr|]. split; [exact Hans|].
  split; [rewrite Htr, <- !app_assoc; reflexivity|].
  split; [rewrite !writes_app, Hw; reflexivity|].
  split; [|exact Hs]. rewrite !invocations_app. reflexivity.
Qed.

(** The reporting phase. *)
Lemma report_unfold path tests results s :
  report host fmt path tests results s =
  let s2 := emit (EvLog "📝 Saving results to file...")
              (emit (EvLog "🏁 Benchmark completed") s) in
  match results !! 0%nat with
  | None =>
      (Thrown (TypeError "Cannot read properties of undefined (reading 'model')"), s2)
  | Some first =>
      match writeFile host path
              (summaryTemplate fmt tests (TestResult.model first)
                 (length results) (summarize results)) s2 with
      | (Returned _, s3) =>
          match write_tests host fmt path 0 results s3 with
          | (Returned _, s4) =>
              (Returned (),
               emit (EvLog "🎉 Benchmark completed successfully")
                 (emit (EvLog ("📄 Results saved to File: " +:+ path)) s4))
          | (Thrown e, s4) => (Thrown e, s4)
          end
      | (Thrown e, s3) => (Thrown e, s3)
      end
  end.
Proof.
  unfold report, mbind, M_bind. simpl.
  destruct (results !! 0%nat) as [first|]; [|reflexivity]. simpl.
  destruct (writeFile host path _ _) as [[[]|e] s3]; [|reflexivity].
  destruct (write_tests host fmt path 0 results s3) as [[[]|e] s4]; reflexivity.
Qed.

(** Whatever its outcome, the reporting phase issues no request.  On no
    results it throws before any write.  Otherwise its writes are the
    first ones of the report, all to [path]: all of them when it
    returns, and when it throws, the last event is the write that
    failed. *)
Lemma report_trace path tests results s r s' :
  report host fmt path tests results s = (r, s') ->
  exists evs, events_of s s' evs /\ invocations evs = [] /\
    match results !! 0%nat with
    | None =>
        writes evs = [] /\
        r = Thrown (TypeError "Cannot read properties of undefined (reading 'model')")
    | Some first =>
        let all := report_writes fmt path tests (TestResult.model first)
                     results (summarize results) in
        (exists k, writes evs = take k all) /\
        (r = Returned () -> writes evs = all) /\
        (forall e, r = Thrown e ->
           exists pre data w, evs = pre ++ [EvWrite path data] /\
             host_append host path data w = (Thrown e, world s'))
    end.
Proof.
  unfold events_of. rewrite report_unfold. cbv zeta.
  destruct (results !! 0%nat) as [first|].
  - unfold writeFile at 1.
    destruct (host_append host path _ _) as [[[]|e] w3] eqn:Ea; simpl in Ea.
    + destruct (write_tests host fmt path 0 results _) as [[[]|e] s4] eqn:Ew;
        apply write_tests_trace in Ew as (k & Htr & Hret & Hthr);
        unfold events_of in Htr; simpl in Htr.
      * intros [= <- <-]. simpl. rewrite Htr. eexists.
        split; [rewrite <- !app_assoc; reflexivity|].
        rewrite !invocations_app, !writes_app, invocations_write_events,
          writes_write_events. simpl. rewrite app_nil_r.
        split; [reflexivity|]. unfold report_writes.
        split; [exists (S k); reflexivity|]. rewrite (Hret eq_refl).
        split; [reflexivity | discriminate].
      * intros [= <- <-]. rewrite Htr. eexists.
        split; [rewrite <- !app_assoc; reflexivity|].
        rewrite !invocations_app, !writes_app, invocations_write_events,
          writes_write_events. simpl.
        split; [reflexivity|]. unfold report_writes.
        split; [exists (S k); reflexivity|].
        split; [discriminate|]. intros e' [= <-].
        destruct (Hthr e eq_refl) as (pre & data & w & Hpre & Happ).
        rewrite Hpre, map_app. simpl.
        eexists (_ :: _ :: _ :: map write_event pre), data, w.
        split; [reflexivity | exact Happ].
    + intros [= <- <-]. simpl. eexists.
      split; [rewrite <- !app_assoc; reflexivity|]. simpl.
      split; [reflexivity|].
      split; [exists 1%nat; simpl; rewrite take_0; reflexivity|].
      split; [discriminate|]. intros e' [= <-].
      eexists [_; _], _, (world s). split; [reflexivity | exact Ea].
  - intros [= <- <-]. simpl. eexists.
    split; [rewrite <- !app_assoc; reflexivity|]. simpl. auto.
Qed.

(** A run is its measuring phase followed, if that returns, by its
    reporting phase, to the path fixed by the clock at the start. *)
Lemma run_cases tests model baseUrl s r s' :
  runBenchmark host fmt tests model baseUrl s = (r, s') ->
  (exists e, measure host tests model baseUrl s = (Thrown e, s') /\ r = Thrown e) \/
  (exists results s1,
     measure host tests model baseUrl s = (Returned results, s1) /\
     report host fmt (reportPath (host_now host (world s))) tests results s1 = (r, s')).
Proof.
  unfold runBenchmark, mbind, M_bind, new_Date.
  destruct (measure host tests model baseUrl s) as [[results|e] s1].
  - intros H. right. eauto.
  - intros [= <- <-]. left. eauto.
Qed.

Lemma report_writes_path path tests model results sm k :
  Forall (fun w => w.1 = path) (take k (report_writes fmt path tests model results sm)).
Proof.
  apply Forall_take. unfold report_writes. constructor; [reflexivity|].
  apply Forall_forall. intros [p d] Hin.
  apply elem_of_lookup_imap in Hin as (i & result & [= -> ->] & _).
  reflexivity.
Qed.

(** Every run, whatever its outcome: its events are those of the
    measuring phase, which hold no write, followed by those of the
    reporting phase, which hold no request.  The first request is the
    warm-up and the later ones are those of the first prompts, in order;
    every write goes to the report path; and a run that throws after it
    started writing throws from its last write. *)
Lemma run_trace tests model baseUrl s r s' :
  runBenchmark host fmt tests model baseUrl s = (r, s') ->
  exists evs1 evs2 requests k,
    events_of s s' (evs1 ++ evs2) /\
    writes evs1 = [] /\ invocations evs2 = [] /\
    invocations evs1 = (baseUrl, model, "Hello") :: requests /\
    Forall2 (sent baseUrl model) (take k tests) requests /\
    Forall (fun w => w.1 = reportPath (host_now host (world s))) (writes evs2) /\
    (forall e, r = Thrown e -> writes evs2 <> [] ->
       exists pre data w,
         evs2 = pre ++ [EvWrite (reportPath (host_now host (world s))) data] /\
         host_append host (reportPath (host_now host (world s))) data w
           = (Thrown e, world s')).
Proof.
  intros Hrun. apply run_cases in Hrun as [(e & Hm & ->)|(results & s1 & Hm & Hrep)].
  - apply measure_trace in Hm as (evs & requests & k & Htr & Hw & Hi & Hk).
    exists evs, [], requests, k. rewrite app_nil_r.
    repeat split; auto. intros e' _ Hne. destruct Hne. reflexivity.
  - apply measure_trace in Hm as (evs1 & requests & k & Htr1 & Hw & Hi & Hk).
    apply report_trace in Hrep as (evs2 & Htr2 & Hi2 & Hcase).
    exists evs1, evs2, requests, k.
    unfold events_of in *. rewrite Htr2, Htr1, <- app_assoc.
    repeat split; auto.
    + destruct (results !! 0%nat) as [first|].
      * destruct Hcase as ((k' & ->) & _). apply report_writes_path.
      * destruct Hcase as (-> & _). constructor.
    + intros e -> Hne. destruct (results !! 0%nat) as [first|].
      * destruct Hcase as (_ & _ & Hthr). exact (Hthr e eq_refl).
      * destruct Hcase as (Hw2 & _). contradiction.
Qed.

(** A run that returns: the warm-up request was answered and its reply
    dropped; every prompt was then sent and answered, in order; and the
    report written is the summary of these results followed by their
    sections. *)
Lemma run_returned tests model baseUrl s s' :
  runBenchmark host fmt tests model baseUrl s = (Returned (), s') ->
  exists msg0 w1 r0 w2 results first evs requests,
    host_invoke host baseUrl model "Hello" (world s) = (Returned msg0, w1) /\
    toResult "Hello" model msg0 = Returned r0 /\
    answers host model baseUrl w1 tests results w2 /\
    results !! 0%nat = Some first /\
    events_of s s' evs /\
    invocations evs = (baseUrl, model, "Hello") :: requests /\
    Forall2 (sent baseUrl model) tests requests /\
    writes evs = report_writes fmt (reportPath (host_now host (world s))) tests
                   (TestResult.model first) results (summarize results).
Proof.
  intros Hrun. apply run_cases in Hrun as [(e & _ & [=])|(results & s1 & Hm & Hrep)].
  apply measure_returned in Hm
    as (msg0 & w1 & r0 & evs1 & requests & Hinv & Hr0 & Hans & Htr1 & Hw & Hi & Hs).
  apply report_trace in Hrep as (evs2 & Htr2 & Hi2 & Hcase).
  destruct (results !! 0%nat) as [first|] eqn:Hfirst;
    [|destruct Hcase as (_ & [=])].
  destruct Hcase as (_ & Hall & _).
  exists msg0, w1, r0, (world s1), results, first, (evs1 ++ evs2), requests.
  unfold events_of in *.
  repeat split; auto.
  - rewrite Htr2, Htr1, <- app_assoc. reflexivity.
  - rewrite invocations_app, Hi, Hi2, app_nil_r. reflexivity.
  - rewrite writes_app, Hw, (Hall eq_refl). reflexivity.
Qed.

(** ** Failing prober calls *)

Lemma prober_throws model baseUrl s test e :
  throws host model baseUrl (world s) test e ->
  exists s', benchmarkOllamaWithLangchain host test model baseUrl s = (Thrown e, s').
Proof.
  intros [Hf|(text & Hf & Hi)]; rewrite prober_unfold, Hf; [eauto|].
  destruct (host_invoke host baseUrl model text (world s)) as [[msg|e'] w].
  - rewrite Hi. eauto.
  - subst e'. eauto.
Qed.

Lemma prober_answered model baseUrl s test text msg w1 result :
  Template.format test ∅ = Returned text ->
  host_invoke host baseUrl model text (world s) = (Returned msg, w1) ->
  toResult test model msg = Returned result ->
  benchmarkOllamaWithLangchain host test model baseUrl s =
  (Returned result, {| world := w1; trace := trace s ++ [EvInvoke baseUrl model text] |}).
Proof. intros Hf Hi Hr. rewrite prober_unfold, Hf, Hi, Hr. reflexivity. Qed.

Lemma run_tests_fails model baseUrl n tests :
  forall i results s e,
    fails host model baseUrl (world s) tests e ->
    exists s', run_tests host model baseUrl n i tests results s = (Thrown e, s').
Proof.
  induction tests as [|test rest IH]; intros i results s e Hfails;
    inversion Hfails as [w t ts e0 Hthrows|w t text msg w1 result ts e0 Hf Hi Hr Hrest];
    subst; rewrite run_tests_cons.
  - eapply (prober_throws _ _ (emit _ s)) in Hthrows as (s1 & ->). eauto.
  - erewrite (prober_answered _ _ (emit _ s)) by eauto.
    apply IH. exact Hrest.
Qed.

Lemma measure_fails tests model baseUrl s e :
  fails host model baseUrl (world s) ("Hello" :: tests) e ->
  exists s', measure host tests model baseUrl s = (Thrown e, s').
Proof.
  intros Hfails. rewrite measure_unfold.
  inversion Hfails as [w t ts e0 Hthrows|w t text msg w1 result ts e0 Hf Hi Hr Hrest];
    subst.
  - eapply (prober_throws _ _ (emit _ s)) in Hthrows as (s1 & ->). eauto.
  - erewrite (prober_answered _ _ (emit _ s)) by eauto.
    apply run_tests_fails. exact Hrest.
Qed.

(** ** Totals and averages *)

Lemma reduce_sum_of {A : Type} (f : A -> number) (l : list A) :
  reduce (fun acc r => Num.add acc (f r)) Num.zero l = sum_of (map f l).
Proof.
  unfold reduce, sum_of. induction l as [|x l IH] using rev_ind; [reflexivity|].
  rewrite foldl_app, map_app, rev_app_distr. simpl. rewrite IH. reflexivity.
Qed.

(** C1. In every run that completes on a non-empty prompt list, the
    summary written to the report is the one of the recorded results,
    one per prompt, and its totals are the sums of the per-test values:
    total tokens is the sum of the per-test [totalTokens], total input
    tokens the sum of the per-test [inputTokens], total output tokens
    the sum of the per-test [outputTokens], and total time the sum of
    the per-test [elapsedTime].  The sums are those of numbers, taken in
    list order; for token counts, which are non-negative integers, a
    total below [2^53] is the integer total. *)
Theorem summary_totals_are_sums tests model baseUrl s s' :
  tests <> [] ->
  runBenchmark host fmt tests model baseUrl s = (Returned (), s') ->
  exists results first evs,
    map TestResult.query results = tests /\
    results !! 0%nat = Some first /\
    events_of s s' evs /\
    writes evs = report_writes fmt (reportPath (host_now host (world s))) tests
                   (TestResult.model first) results (summarize results) /\
    Summary.totalTokens (summarize results)
      = sum_of (map TestResult.totalTokens results) /\
    Summary.totalInputTokens (summarize results)
      = sum_of (map TestResult.inputTokens results) /\
    Summary.totalOutputTokens (summarize results)
      = sum_of (map TestResult.outputTokens results) /\
    Summary.totalTime (summarize results)
      = sum_of (map TestResult.elapsedTime results) /\
    (forall ns,
       Forall (fun n => 0 <= n)%Z ns -> (Zsum ns < 2 ^ 53)%Z ->
       (map TestResult.totalTokens results = map Num.of_Z ns ->
        Summary.totalTokens (summarize results) = Num.of_Z (Zsum ns)) /\
       (map TestResult.inputTokens results = map Num.of_Z ns ->
        Summary.totalInputTokens (summarize results) = Num.of_Z (Zsum ns)) /\
       (map TestResult.outputTokens results = map Num.of_Z ns ->
        Summary.totalOutputTokens (summarize results) = Num.of_Z (Zsum ns))).
Proof.
  intros _ Hrun.
  apply run_returned in Hrun
    as (msg0 & w1 & r0 & w2 & results & first & evs & requests
        & _ & _ & Hans & Hfirst & Htr & _ & _ & Hw).
  apply answers_queries in Hans as [Hq _].
  exists results, first, evs.
  do 4 (split; [assumption|]).
  do 4 (split; [unfold summarize; simpl; apply reduce_sum_of|]).
  intros ns Hall Hsum.
  repeat split; intros Hints; unfold summarize; simpl;
    rewrite reduce_sum_of, Hints; apply sum_of_integers; assumption.
Qed.

(** C2. In every run that completes, the Score of the summary written
    to the report is the arithmetic mean of the per-test
    [tokensPerSecond] of the recorded results; and this is not the ratio
    of total tokens to total time, from which it differs on some
    results. *)
Theorem score_is_mean_of_rates tests model baseUrl s s' :
  runBenchmark host fmt tests model baseUrl s = (Returned (), s') ->
  (exists results first evs,
     results <> [] /\
     map TestResult.query results = tests /\
     results !! 0%nat = Some first /\
     events_of s s' evs /\
     writes evs = report_writes fmt (reportPath (host_now host (world s))) tests
                    (TestResult.model first) results (summarize results) /\
     Summary.averageTokensPerSecond (summarize results)
       = mean_of (map TestResult.tokensPerSecond results)) /\
  (exists results,
     results <> [] /\
     Summary.averageTokensPerSecond (summarize results)
       <> Num.div (Summary.totalTokens (summarize results))
                  (Summary.totalTime (summarize results))).
Proof.
  intros Hrun. split.
  - apply run_returned in Hrun
      as (msg0 & w1 & r0 & w2 & results & first & evs & requests
          & _ & _ & Hans & Hfirst & Htr & _ & _ & Hw).
    apply answers_queries in Hans as [Hq _].
    exists results, first, evs.
    repeat split; auto.
    + intros ->. discriminate.
    + unfold summarize, mean_of. simpl.
      rewrite reduce_sum_of, length_map. reflexivity.
  - exists Mock.uneven. split; [discriminate|]. vm_compute. discriminate.
Qed.

(** C3. In every run that completes, each average of the summary written
    to the report is the corresponding total divided by the number of
    recorded tests, which is the number of prompts. *)
Theorem averages_are_totals_over_count tests model baseUrl s s' :
  runBenchmark host fmt tests model baseUrl s = (Returned (), s') ->
  exists results first evs,
    results <> [] /\
    length results = length tests /\
    results !! 0%nat = Some first /\
    events_of s s' evs /\
    writes evs = report_writes fmt (reportPath (host_now host (world s))) tests
                   (TestResult.model first) results (summarize results) /\
    let sm := summarize results in
    let count := Num.of_nat (length results) in
    Summary.averageTime sm = Num.div (Summary.totalTime sm) count /\
    Summary.averageInputTokens sm = Num.div (Summary.totalInputTokens sm) count /\
    Summary.averageOutputTokens sm = Num.div (Summary.totalOutputTokens sm) count /\
    Summary.averageTotalTokens sm = Num.div (Summary.totalTokens sm) count.
Proof.
  intros Hrun.
  apply run_returned in Hrun
    as (msg0 & w1 & r0 & w2 & results & first & evs & requests
        & _ & _ & Hans & Hfirst & Htr & _ & _ & Hw).
  apply answers_queries in Hans as [Hq _].
  exists results, first, evs.
  repeat split; auto.
  - intros ->. discriminate.
  - rewrite <- Hq, length_map. reflexivity.
Qed.

(** ** The prober *)

(** C4. Every prober call that returns got an answer with usage
    metadata; the [elapsedTime] of its result is the [total_duration] of
    the answer divided by [1e9], and its [tokensPerSecond] is its
    [totalTokens] divided by that [elapsedTime].  In particular, for a
    total duration of 2_000_000_000 and 6 total tokens, [elapsedTime] is
    2 and [tokensPerSecond] is 3. *)
Theorem prober_elapsed_and_rate input model baseUrl s result s' :
  benchmarkOllamaWithLangchain host input model baseUrl s = (Returned result, s') ->
  exists text msg usage,
    Template.format input ∅ = Returned text /\
    host_invoke host baseUrl model text (world s) = (Returned msg, world s') /\
    usage_metadata msg = Some usage /\
    TestResult.totalTokens result = total_tokens usage /\
    TestResult.elapsedTime result
      = Num.div (to_number (total_duration msg)) Num._1e9 /\
    TestResult.tokensPerSecond result
      = Num.div (TestResult.totalTokens result) (TestResult.elapsedTime result) /\
    (total_duration msg = JsNumber (Num.of_Z 2000000000) ->
     total_tokens usage = Num.of_Z 6 ->
     TestResult.elapsedTime result = Num.of_Z 2 /\
     TestResult.tokensPerSecond result = Num.of_Z 3).
Proof.
  intros Hrun.
  apply prober_events in Hrun as [[_ (e & [=] & _)]|(text & Hf & _ & o & Ho & Hr)].
  destruct o as [msg|e]; [|discriminate].
  unfold toResult in Hr. destruct (usage_metadata msg) as [usage|] eqn:Hu; [|discriminate].
  injection Hr as ->. exists text, msg, usage. simpl.
  do 6 (split; [auto|]).
  intros -> ->. split; reflexivity.
Qed.

(** ** The run *)

(** C5. In every run the first request is the warm-up call, with the
    prompt "Hello", and the requests after it are those of the prompts.
    When the run completes, the reply to the warm-up was dropped: there
    is one recorded result per prompt, each built from the answer to
    that prompt, sent after the warm-up; the result of the warm-up is
    not among them unless "Hello" is itself a prompt; and the report is
    the summary of the recorded results followed by one section for each
    of them. *)
Theorem warm_up_is_discarded tests model baseUrl s r s' :
  runBenchmark host fmt tests model baseUrl s = (r, s') ->
  (exists evs requests k,
     events_of s s' evs /\
     invocations evs = (baseUrl, model, "Hello") :: requests /\
     Forall2 (sent baseUrl model) (take k tests) requests) /\
  (r = Returned () ->
   exists msg0 w1 r0 w2 results first evs,
     host_invoke host baseUrl model "Hello" (world s) = (Returned msg0, w1) /\
     toResult "Hello" model msg0 = Returned r0 /\
     answers host model baseUrl w1 tests results w2 /\
     length results = length tests /\
     ("Hello" ∉ tests -> r0 ∉ results) /\
     results !! 0%nat = Some first /\
     events_of s s' evs /\
     writes evs = report_writes fmt (reportPath (host_now host (world s))) tests
                    (TestResult.model first) results (summarize results) /\
     length (writes evs) = S (length tests)).
Proof.
  intros Hrun. split.
  - apply run_trace in Hrun
      as (evs1 & evs2 & requests & k & Htr & _ & Hi2 & Hi1 & Hk & _).
    exists (evs1 ++ evs2), requests, k.
    rewrite invocations_app, Hi1, Hi2, app_nil_r. auto.
  - intros ->. apply run_returned in Hrun
      as (msg0 & w1 & r0 & w2 & results & first & evs & requests
          & Hinv & Hr0 & Hans & Hfirst & Htr & _ & _ & Hw).
    pose proof (answers_queries _ _ _ _ _ _ Hans) as [Hq _].
    assert (length results = length tests) as Hlen
        by (rewrite <- Hq, length_map; reflexivity).
    exists msg0, w1, r0, w2, results, first, evs.
    repeat split; auto.
    + intros Hnot Hin. apply Hnot. rewrite <- Hq.
      apply toResult_query in Hr0 as [<- _].
      apply list_elem_of_fmap. eauto.
    + rewrite Hw. unfold report_writes. simpl. rewrite length_imap, Hlen.
      reflexivity.
Qed.

(** C8. In every run the requests after the warm-up are those of the
    first prompts, one per prompt, in list order.  When the run
    completes there is exactly one request per prompt, in list order,
    each sent in the world the previous one left behind; the [i]-th
    recorded result has the [i]-th prompt as its [query]; and the
    [i]-th section written after the summary is the section of the
    [i]-th result. *)
Theorem one_call_per_prompt_in_order tests model baseUrl s r s' :
  runBenchmark host fmt tests model baseUrl s = (r, s') ->
  (exists evs requests k,
     events_of s s' evs /\
     invocations evs = (baseUrl, model, "Hello") :: requests /\
     Forall2 (sent baseUrl model) (take k tests) requests) /\
  (r = Returned () ->
   exists msg0 w1 w2 results evs requests,
     host_invoke host baseUrl model "Hello" (world s) = (Returned msg0, w1) /\
     answers host model baseUrl w1 tests results w2 /\
     events_of s s' evs /\
     invocations evs = (baseUrl, model, "Hello") :: requests /\
     Forall2 (sent baseUrl model) tests requests /\
     length (writes evs) = S (length tests) /\
     forall i test, tests !! i = Some test ->
       exists result,
         results !! i = Some result /\
         TestResult.query result = test /\
         writes evs !! S i
           = Some (reportPath (host_now host (world s)), testTemplate fmt i result)).
Proof.
  intros Hrun. split.
  - apply run_trace in Hrun
      as (evs1 & evs2 & requests & k & Htr & _ & Hi2 & Hi1 & Hk & _).
    exists (evs1 ++ evs2), requests, k.
    rewrite invocations_app, Hi1, Hi2, app_nil_r. auto.
  - intros ->. apply run_returned in Hrun
      as (msg0 & w1 & r0 & w2 & results & first & evs & requests
          & Hinv & Hr0 & Hans & Hfirst & Htr & Hi & Hs & Hw).
    pose proof (answers_queries _ _ _ _ _ _ Hans) as [Hq _].
    exists msg0, w1, w2, results, evs, requests.
    repeat split; auto.
    + rewrite Hw. unfold report_writes. simpl.
      rewrite length_imap, <- Hq, length_map. reflexivity.
    + intros i test Hi'. rewrite <- Hq in Hi'.
      apply list_lookup_fmap_Some in Hi' as (result & -> & Hres).
      exists result. repeat split; auto.
      rewrite Hw. unfold report_writes. simpl.
      rewrite list_lookup_imap, Hres. reflexivity.
Qed.

(** C9. In every run, every write comes after every request: the events
    split into a first part without a write and a second part without a
    request.  If a prober call fails, the warm-up or a measured one, the
    run fails with the same error and has written nothing.  And a run
    that fails after it started writing fails from its last write, and
    what it wrote is the beginning of the report: the summary, then the
    first sections. *)
Theorem prober_failure_writes_nothing tests model baseUrl s r s' :
  runBenchmark host fmt tests model baseUrl s = (r, s') ->
  (exists evs1 evs2,
     events_of s s' (evs1 ++ evs2) /\ writes evs1 = [] /\ invocations evs2 = []) /\
  (forall e,
     fails host model baseUrl (world s) ("Hello" :: tests) e ->
     r = Thrown e /\ writes (trace s') = writes (trace s)) /\
  (forall e evs,
     r = Thrown e -> events_of s s' evs -> writes evs <> [] ->
     (exists results first k,
        results !! 0%nat = Some first /\
        writes evs = take k (report_writes fmt (reportPath (host_now host (world s)))
                               tests (TestResult.model first) results
                               (summarize results))) /\
     exists pre data w,
       evs = pre ++ [EvWrite (reportPath (host_now host (world s))) data] /\
       host_append host (reportPath (host_now host (world s))) data w
         = (Thrown e, world s')).
Proof.
  intros Hrun. split; [|split].
  - apply run_trace in Hrun as (evs1 & evs2 & _ & _ & Htr & Hw & Hi & _).
    eauto.
  - intros e Hfails. apply measure_fails in Hfails as (s1 & Hm).
    apply run_cases in Hrun as [(e' & Hm' & ->)|(results & s2 & Hm' & _)];
      rewrite Hm in Hm'; [|discriminate].
    injection Hm' as <- <-. split; [reflexivity|].
    apply measure_trace in Hm as (evs & _ & _ & Htr & Hw & _).
    rewrite Htr, writes_app, Hw, app_nil_r. reflexivity.
  - intros e evs -> Htr Hne.
    apply run_cases in Hrun as [(e' & Hm & _)|(results & s1 & Hm & Hrep)].
    + apply measure_trace in Hm as (evs1 & _ & _ & Htr1 & Hw1 & _).
      unfold events_of in *. rewrite Htr in Htr1.
      apply app_inv_head in Htr1. subst evs. contradiction.
    + apply measure_trace in Hm as (evs1 & _ & _ & Htr1 & Hw1 & _).
      apply report_trace in Hrep as (evs2 & Htr2 & _ & Hcase).
      unfold events_of in *. rewrite Htr2, Htr1, <- app_assoc in Htr.
      apply app_inv_head in Htr. subst evs.
      rewrite writes_app, Hw1 in Hne |- *. simpl in Hne |- *.
      destruct (results !! 0%nat) as [first|] eqn:Hfirst.
      * destruct Hcase as ((k & Hk) & _ & Hlast). split.
        -- exists results, first, k. split; [exact Hfirst | exact Hk].
        -- destruct (Hlast e eq_refl) as (pre & data & w & -> & Happ).
           exists (evs1 ++ pre), data, w. rewrite app_assoc. auto.
      * destruct Hcase as (Hw2 & _). contradiction.
Qed.

(** ** The empty prompt list *)

(** On no results, the run throws when it renders the summary, before
    any write. *)
Lemma report_nothing path tests s :
  report host fmt path tests [] s =
  (Thrown (TypeError "Cannot read properties of undefined (reading 'model')"),
   emit (EvLog "📝 Saving results to file...")
     (emit (EvLog "🏁 Benchmark completed") s)).
Proof. reflexivity. Qed.

(** C6, amended. On an empty prompt list the run does not fail up front:
    whatever the state it starts in, it first issues the warm-up
    request.  And the five averages are quotients of zero by zero, which
    are [NaN]: the divisions signal no error. *)
Theorem empty_run_averages_are_NaN model baseUrl s :
  (exists r s' evs,
     runBenchmark host fmt [] model baseUrl s = (r, s') /\
     events_of s s' (EvLog "🔥 Heating up..." :: EvInvoke baseUrl model "Hello" :: evs)) /\
  Summary.averageTime (summarize []) = Num.NaN /\
  Summary.averageInputTokens (summarize []) = Num.NaN /\
  Summary.averageOutputTokens (summarize []) = Num.NaN /\
  Summary.averageTotalTokens (summarize []) = Num.NaN /\
  Summary.averageTokensPerSecond (summarize []) = Num.NaN.
Proof.
  split; [|(do 4 (split; [reflexivity|])); reflexivity].
  destruct (runBenchmark host fmt [] model baseUrl s) as [r s'] eqn:Hrun.
  exists r, s'.
  cut (exists evs, events_of s s'
                (EvLog "🔥 Heating up..." :: EvInvoke baseUrl model "Hello" :: evs));
    [intros [evs Hevs]; exists evs; split; [reflexivity | exact Hevs]|].
  unfold events_of.
  apply run_cases in Hrun as [(e & Hm & _)|(results & s1 & Hm & Hrep)].
  - rewrite measure_unfold, prober_unfold, format_Hello in Hm. simpl in Hm.
    destruct (host_invoke host baseUrl model "Hello" (world s)) as [[msg|e'] w].
    + destruct (toResult "Hello" model msg); [discriminate|].
      injection Hm as _ <-. exists []. simpl. rewrite <- app_assoc. reflexivity.
    + injection Hm as _ <-. exists []. simpl. rewrite <- app_assoc. reflexivity.
  - rewrite measure_unfold, prober_unfold, format_Hello in Hm. simpl in Hm.
    destruct (host_invoke host baseUrl model "Hello" (world s)) as [[msg|e'] w];
      [|discriminate].
    destruct (toResult "Hello" model msg); [|discriminate].
    injection Hm as <- <-. rewrite report_nothing in Hrep.
    injection Hrep as _ <-. simpl. eexists. rewrite <- !app_assoc. reflexivity.
Qed.

(** ** The report file *)

(** C7, amended. In every run, every write goes to
    [./results/benchmark-<timestamp>.md], where the timestamp is the ISO
    string of the start time with every colon and every period replaced
    by a hyphen.  The timestamp holds no colon and no period, and for a
    start time in the years 0 to 9999 it has the form
    [YYYY-MM-DDTHH-MM-SS-mmmZ]: the final [Z] of the ISO string is
    kept. *)
Theorem report_path_timestamp tests model baseUrl s r s' evs :
  runBenchmark host fmt tests model baseUrl s = (r, s') ->
  events_of s s' evs ->
  Date.valid (host_now host (world s)) ->
  (0 <= Date.year (host_now host (world s)) <= 9999)%Z ->
  let timestamp := benchmarkDateTime (host_now host (world s)) in
  Forall (fun w => w.1 = "./results/benchmark-" +:+ timestamp +:+ ".md") (writes evs) /\
  timestamp = replace_all "." "-"
                (replace_all ":" "-" (Date.toISOString (host_now host (world s)))) /\
  has_form "YYYY-MM-DDTHH-MM-SS-mmmZ" timestamp = true /\
  contains ":" timestamp = false /\
  contains "." timestamp = false.
Proof.
  intros Hrun Htr Hvalid Hyear timestamp.
  apply run_trace in Hrun
    as (evs1 & evs2 & _ & _ & Htr' & Hw1 & _ & _ & _ & Hpath & _).
  unfold events_of in *. rewrite Htr in Htr'. apply app_inv_head in Htr'. subst evs.
  rewrite writes_app, Hw1. simpl.
  split; [exact Hpath|]. split; [reflexivity|].
  split; [apply benchmarkDateTime_form; assumption|].
  apply benchmarkDateTime_no_separator.
Qed.

End Coordinator.

(* ===================================================================== *)
(** * The scenario of the specification, and other concrete runs *)
(* ===================================================================== *)

(* ===================================================================== *)
(** * Further properties of the prober and of the run *)
(* ===================================================================== *)

Section ProberCases.

Context {W : Type}.
Variable host : Host W.

Lemma nextBracket_none bracket chars :
  forallb (fun a => negb (Template.is_bracket bracket a)) chars = true ->
  Template.nextBracket bracket chars = None.
Proof.
  induction chars as [|a chars IH]; simpl; [reflexivity|].
  intros [Ha Hs]%andb_true_iff. apply negb_true_iff in Ha.
  rewrite Ha, (IH Hs). reflexivity.
Qed.

(** Text without braces is one literal. *)
Lemma parse_brace_free c chars :
  Template.brace_free (c :: chars) = true ->
  Template.parse (c :: chars) = Returned [Template.Literal (Template.text_of (c :: chars))].
Proof.
  intros Hfree. rewrite parse_unfold.
  destruct (brace_free_head _ _ Hfree) as [-> ->].
  rewrite nextBracket_none by exact Hfree. reflexivity.
Qed.

Lemma format_brace_free input values :
  Template.brace_free (list_ascii_of_string input) = true ->
  Template.format input values = Returned input.
Proof.
  intros Hfree. unfold Template.format, Template.parseFString.
  destruct (list_ascii_of_string input) as [|c chars] eqn:E.
  - destruct input; [reflexivity | discriminate].
  - rewrite parse_brace_free by exact Hfree.
    change (Template.formatMessages [Template.Literal ?t] values) with (Returned (A:=string) t).
    rewrite <- E. unfold Template.text_of.
    rewrite string_of_list_ascii_of_string. reflexivity.
Qed.

(** X1. A prompt without a brace is formatted to itself: the prober sends
    it to the model server as it is, in one request, and its outcome is
    the record built from the reply, or the error of the request. *)
Theorem brace_free_prompt_is_sent_verbatim input model baseUrl (s : state W) :
  Template.brace_free (list_ascii_of_string input) = true ->
  Template.format input ∅ = Returned input /\
  exists o w,
    host_invoke host baseUrl model input (world s) = (o, w) /\
    benchmarkOllamaWithLangchain host input model baseUrl s =
    (match o with
     | Returned msg => toResult input model msg
     | Thrown e => Thrown e
     end,
     {| world := w; trace := trace s ++ [EvInvoke baseUrl model input] |}).
Proof.
  intros Hfree. pose proof (format_brace_free input ∅ Hfree) as Hf.
  split; [exact Hf|].
  destruct (host_invoke host baseUrl model input (world s)) as [o w] eqn:E.
  exists o, w. split; [reflexivity|].
  rewrite prober_unfold, Hf, E. reflexivity.
Qed.

(** X2. A prober call sends a request exactly when the prompt formats,
    and then exactly one, for the formatted prompt, and does nothing
    else.  When the prompt does not format, the call throws that error
    and the state is as before.  When the request fails, the call throws
    its error; when the reply has no usage metadata, it throws a
    [TypeError]; in every other case it returns a record, for this
    prompt and model, with the content and the token count of the
    reply. *)
Theorem prober_outcome input model baseUrl (s : state W) r s' :
  benchmarkOllamaWithLangchain host input model baseUrl s = (r, s') ->
  (forall e, Template.format input ∅ = Thrown e -> r = Thrown e /\ s' = s) /\
  (forall text, Template.format input ∅ = Returned text ->
     events_of s s' [EvInvoke baseUrl model text] /\
     world s' = (host_invoke host baseUrl model text (world s)).2 /\
     match (host_invoke host baseUrl model text (world s)).1 with
     | Thrown e => r = Thrown e
     | Returned msg =>
         match usage_metadata msg with
         | None => exists message, r = Thrown (TypeError message)
         | Some usage =>
             exists result,
               r = Returned result /\
               TestResult.query result = input /\
               TestResult.model result = model /\
               TestResult.response result = content msg /\
               TestResult.totalTokens result = total_tokens usage
         end
     end).
Proof.
  rewrite prober_unfold. unfold events_of.
  destruct (Template.format input ∅) as [text|e0].
  - destruct (host_invoke host baseUrl model text (world s)) as [o w] eqn:E.
    intros [= <- <-]. split; [discriminate|].
    intros text' [= <-]. rewrite E. simpl. split; [reflexivity|].
    split; [reflexivity|].
    destruct o as [msg|e1]; [|reflexivity].
    unfold toResult. destruct (usage_metadata msg) as [usage|].
    + eexists. split; [reflexivity|]. repeat split.
    + eexists. reflexivity.
  - intros [= <- <-]. split; [|discriminate].
    intros e [= <-]. split; reflexivity.
Qed.

(** X3. A reply without [total_duration] is no error: the prober returns
    a record, whose elapsed time and tokens per second are [NaN], with
    the token count of the reply. *)
Theorem missing_duration_is_NaN input model baseUrl (s : state W) text msg w usage :
  Template.format input ∅ = Returned text ->
  host_invoke host baseUrl model text (world s) = (Returned msg, w) ->
  usage_metadata msg = Some usage ->
  total_duration msg = JsUndefined ->
  exists result s',
    benchmarkOllamaWithLangchain host input model baseUrl s = (Returned result, s') /\
    TestResult.elapsedTime result = Num.NaN /\
    TestResult.tokensPerSecond result = Num.NaN /\
    TestResult.totalTokens result = total_tokens usage.
Proof.
  intros Hf Hi Hu Hd. rewrite prober_unfold, Hf, Hi. unfold toResult. rewrite Hu, Hd.
  eexists. eexists. split; [reflexivity|]. simpl.
  split; [reflexivity|]. split; [|reflexivity].
  destruct (total_tokens usage); reflexivity.
Qed.

(** X4. A reply with a [total_duration] of zero is no error: the elapsed
    time is zero, and the tokens per second are [Infinity] for a positive
    token count and [NaN] for a token count of zero. *)
Theorem zero_duration_is_not_an_error input model baseUrl (s : state W) text msg w usage :
  Template.format input ∅ = Returned text ->
  host_invoke host baseUrl model text (world s) = (Returned msg, w) ->
  usage_metadata msg = Some usage ->
  total_duration msg = JsNumber (Num.of_Z 0) ->
  exists result s',
    benchmarkOllamaWithLangchain host input model baseUrl s = (Returned result, s') /\
    TestResult.elapsedTime result = Num.zero /\
    (forall m e, total_tokens usage = S754_finite false m e ->
       TestResult.tokensPerSecond result = S754_infinity false) /\
    (forall sign, total_tokens usage = S754_zero sign ->
       TestResult.tokensPerSecond result = Num.NaN).
Proof.
  intros Hf Hi Hu Hd. rewrite prober_unfold, Hf, Hi. unfold toResult. rewrite Hu, Hd.
  eexists. eexists. split; [reflexivity|]. simpl.
  split; [reflexivity|]. split.
  - intros m e ->. reflexivity.
  - intros sign ->. reflexivity.
Qed.

End ProberCases.

Section NotANumber.

Lemma add_NaN_l x : Num.add Num.NaN x = Num.NaN.
Proof. reflexivity. Qed.

Lemma add_NaN_r x : Num.add x Num.NaN = Num.NaN.
Proof. destruct x; reflexivity. Qed.

Lemma div_NaN_l x : Num.div Num.NaN x = Num.NaN.
Proof. reflexivity. Qed.

Lemma reduce_NaN {A : Type} (f : A -> number) (l : list A) :
  reduce (fun acc r => Num.add acc (f r)) Num.NaN l = Num.NaN.
Proof. unfold reduce. induction l as [|x l IH]; simpl; [reflexivity | exact IH]. Qed.

Lemma reduce_with_NaN {A : Type} (f : A -> number) (l : list A) x init :
  In x l -> f x = Num.NaN ->
  reduce (fun acc r => Num.add acc (f r)) init l = Num.NaN.
Proof.
  unfold reduce. revert init. induction l as [|y l IH]; intros init; [intros []|].
  intros [->|Hin] Hx; simpl.
  - rewrite Hx, add_NaN_r. apply reduce_NaN.
  - apply IH; assumption.
Qed.

(** X5. One [NaN] among the recorded values is enough: if a result has
    [NaN] as its elapsed time, its rate or its token count, then the
    total and the average of that value in the summary are [NaN],
    whatever the other results are. *)
Theorem NaN_spreads_to_the_summary (results : list TestResult.t) result :
  In result results ->
  (TestResult.elapsedTime result = Num.NaN ->
   Summary.totalTime (summarize results) = Num.NaN /\
   Summary.averageTime (summarize results) = Num.NaN) /\
  (TestResult.tokensPerSecond result = Num.NaN ->
   Summary.averageTokensPerSecond (summarize results) = Num.NaN) /\
  (TestResult.totalTokens result = Num.NaN ->
   Summary.totalTokens (summarize results) = Num.NaN /\
   Summary.averageTotalTokens (summarize results) = Num.NaN).
Proof.
  intros Hin. unfold summarize. simpl.
  split; [|split]; intros Hnan;
    rewrite (reduce_with_NaN _ results result _ Hin Hnan); auto.
Qed.

End NotANumber.

Section RunCases.

Context {W : Type}.
Variable host : Host W.
Variable fmt : NumberFormat.

Implicit Types (s : state W) (tests : list string)
  (results : list TestResult.t) (evs : list event).

Lemma test_events_cons baseUrl model n i text texts :
  concat (imap (fun j => test_events baseUrl model n (i + j)) (text :: texts)) =
  test_events baseUrl model n i text
    ++ concat (imap (fun j => test_events baseUrl model n (S i + j)) texts).
Proof.
  rewrite imap_cons, Nat.add_0_r.
  replace (imap ((fun j => test_events baseUrl model n (i + j)) ∘ S) texts)
    with (imap (fun j => test_events baseUrl model n (S i + j)) texts);
    [reflexivity|].
  apply imap_ext. intros j x _. simpl. f_equal. lia.
Qed.

(** The events of a measuring loop that returns, one by one. *)
Lemma run_tests_events model baseUrl n tests :
  forall i results s all s',
    run_tests host model baseUrl n i tests results s = (Returned all, s') ->
    exists new texts,
      all = results ++ new /\
      answers host model baseUrl (world s) tests new (world s') /\
      Forall2 (fun test text => Template.format test ∅ = Returned text) tests texts /\
      events_of s s' (concat (imap (fun j => test_events baseUrl model n (i + j)) texts)).
Proof.
  unfold events_of.
  induction tests as [|test rest IH]; intros i results s all s'.
  - simpl. intros [= <- <-]. exists [], []. rewrite !app_nil_r.
    repeat split; constructor.
  - rewrite run_tests_cons.
    destruct (benchmarkOllamaWithLangchain _ _ _ _ _) as [[result|e] s1] eqn:E;
      [|discriminate].
    intros Hrec. apply IH in Hrec as (new & texts & -> & Hans & Hf2 & Htr).
    apply prober_events in E as [[_ (e & [=] & _)]|(text & Hf & Ht & o & Ho & Hr)].
    simpl in *. destruct o as [msg|e]; [|discriminate].
    exists (result :: new), (text :: texts). rewrite <- app_assoc.
    split; [reflexivity|]. split; [econstructor; eauto|].
    split; [constructor; assumption|].
    rewrite test_events_cons, Htr, Ht. unfold test_events at 2.
    rewrite <- !app_assoc. reflexivity.
Qed.

Lemma answers_first model baseUrl w tests results w' first :
  answers host model baseUrl w tests results w' ->
  results !! 0%nat = Some first -> TestResult.model first = model.
Proof.
  intros Hans Hfirst. apply answers_queries in Hans as [_ Hall].
  destruct results as [|r rs]; [discriminate|]. injection Hfirst as ->.
  apply Forall_inv in Hall. exact Hall.
Qed.

(** X6. A run that completes has done this and nothing else, in this
    order: the heating-up message, the warm-up request, the starting
    message; for each prompt in list order, the message that test
    [i + 1] of [n] runs, the request for the prompt and the message that
    the test completed; the two closing messages; the write of the
    summary, which names the configured model; one write per result, in
    order; and the two final messages. *)
Theorem completed_run_events tests model baseUrl s s' :
  runBenchmark host fmt tests model baseUrl s = (Returned (), s') ->
  exists msg0 w1 w2 results texts,
    host_invoke host baseUrl model "Hello" (world s) = (Returned msg0, w1) /\
    answers host model baseUrl w1 tests results w2 /\
    Forall2 (fun test text => Template.format test ∅ = Returned text) tests texts /\
    events_of s s'
      (run_events fmt (reportPath (host_now host (world s))) tests model baseUrl
         texts results).
Proof.
  intros Hrun.
  apply run_cases in Hrun as [(e & _ & [=])|(results & s1 & Hm & Hrep)].
  rewrite measure_unfold in Hm.
  destruct (benchmarkOllamaWithLangchain _ _ _ _ _) as [[r0|e] s0] eqn:E;
    [|discriminate].
  apply prober_events in E as [[_ (e' & _ & [=])]|(text & [= <-] & Ht & o & Ho & Hr)].
  simpl in Ht, Ho. destruct o as [msg0|e]; [|discriminate].
  apply run_tests_events in Hm as (new & texts & -> & Hans & Hf2 & Htr1).
  change ([] ++ new) with new in *.
  simpl in Hans, Htr1. unfold events_of in Htr1. simpl in Htr1.
  rewrite report_unfold in Hrep. cbv zeta in Hrep.
  destruct (new !! 0%nat) as [first|] eqn:Hfirst; [|discriminate].
  unfold writeFile at 1 in Hrep.
  destruct (host_append host _ _ _) as [[[]|e] w3] eqn:Ea; [|discriminate].
  destruct (write_tests host fmt _ 0 new _) as [[[]|e] s4] eqn:Ew; [|discriminate].
  apply write_tests_trace in Ew as (k & Htr2 & Hret & _).
  unfold events_of in Htr2. simpl in Htr2. rewrite (Hret eq_refl) in Htr2.
  injection Hrep as <-.
  exists msg0, (world s0), (world s1), new, texts.
  split; [exact Ho|]. split; [exact Hans|]. split; [exact Hf2|].
  unfold events_of, run_events, report_writes. simpl.
  rewrite Htr2, Htr1, Ht, (answers_first _ _ _ _ _ _ _ Hans Hfirst).
  rewrite <- !app_assoc. simpl.
  replace (imap (fun j => test_events baseUrl model (length tests) (0 + j)) texts)
    with (imap (test_events baseUrl model (length tests)) texts)
    by (apply imap_ext; reflexivity).
  reflexivity.
Qed.

(** ** Why a run fails, and when it completes *)

Lemma prober_thrown model baseUrl s test e s' :
  benchmarkOllamaWithLangchain host test model baseUrl s = (Thrown e, s') ->
  throws host model baseUrl (world s) test e.
Proof.
  rewrite prober_unfold. unfold throws.
  destruct (Template.format test ∅) as [text|e0]; [|intros [= <- _]; left; reflexivity].
  destruct (host_invoke host baseUrl model text (world s)) as [[msg|e1] w] eqn:E;
    intros [= He _]; right; exists text; rewrite E; split; auto.
Qed.

Lemma run_tests_thrown model baseUrl n tests :
  forall i results s e s',
    run_tests host model baseUrl n i tests results s = (Thrown e, s') ->
    fails host model baseUrl (world s) tests e.
Proof.
  induction tests as [|test rest IH]; intros i results s e s'; [discriminate|].
  rewrite run_tests_cons.
  destruct (benchmarkOllamaWithLangchain _ _ _ _ _) as [[result|e0] s1] eqn:E.
  - intros Hrec. apply IH in Hrec.
    apply prober_events in E as [[_ (e1 & [=] & _)]|(text & Hf & _ & o & Ho & Hr)].
    simpl in *. destruct o as [msg|e1]; [|discriminate].
    eapply fails_later; eauto.
  - intros [= <- <-]. apply fails_here.
    apply prober_thrown in E. exact E.
Qed.

Lemma measure_thrown tests model baseUrl s e s' :
  measure host tests model baseUrl s = (Thrown e, s') ->
  fails host model baseUrl (world s) ("Hello" :: tests) e.
Proof.
  rewrite measure_unfold.
  destruct (benchmarkOllamaWithLangchain _ _ _ _ _) as [[r0|e0] s1] eqn:E.
  - intros Hrec. apply run_tests_thrown in Hrec.
    apply prober_events in E as [[_ (e1 & [=] & _)]|(text & Hf & _ & o & Ho & Hr)].
    simpl in *. destruct o as [msg|e1]; [|discriminate].
    eapply fails_later; eauto.
  - intros [= <- <-]. apply fails_here.
    apply prober_thrown in E. exact E.
Qed.

(** X7. A run fails for one of three reasons only: a prober call failed,
    the warm-up or a measured one, and the run fails with its error; or
    the prompt list is empty, and the run fails with the [TypeError] of
    reading the model of a first result that is not there; or a write to
    the report file failed, and the run fails with its error. *)
Theorem run_failure_causes tests model baseUrl s e s' :
  runBenchmark host fmt tests model baseUrl s = (Thrown e, s') ->
  fails host model baseUrl (world s) ("Hello" :: tests) e \/
  (tests = [] /\
   e = TypeError "Cannot read properties of undefined (reading 'model')") \/
  (exists data w,
     host_append host (reportPath (host_now host (world s))) data w
       = (Thrown e, world s')).
Proof.
  intros Hrun.
  apply run_cases in Hrun as [(e' & Hm & [= <-])|(results & s1 & Hm & Hrep)].
  - left. eapply measure_thrown. exact Hm.
  - right. apply measure_returned in Hm
      as (msg0 & w1 & r0 & evs1 & requests & _ & _ & Hans & _).
    apply report_trace in Hrep as (evs2 & _ & _ & Hcase).
    destruct (results !! 0%nat) as [first|] eqn:Hfirst.
    + right. destruct Hcase as (_ & _ & Hthr).
      destruct (Hthr e eq_refl) as (pre & data & w & _ & Happ). eauto.
    + left. destruct Hcase as (_ & [= <-]). split; [|reflexivity].
      apply answers_queries in Hans as [<- _].
      destruct results; [reflexivity | discriminate].
Qed.

Lemma run_tests_answered model baseUrl n tests :
  forall i results s new w2,
    answers host model baseUrl (world s) tests new w2 ->
    exists s', run_tests host model baseUrl n i tests results s
                 = (Returned (results ++ new), s') /\ world s' = w2.
Proof.
  induction tests as [|test rest IH]; intros i results s new w2 Hans;
    inversion Hans as [|w test' text msg w1 result tests' new' w2' Hf Hi Hr Hrest];
    subst.
  - simpl. rewrite app_nil_r. eauto.
  - rewrite run_tests_cons.
    erewrite (prober_answered _ _ _ (emit _ s)) by eauto.
    edestruct (IH (S i) (results ++ [result])) as (s' & Hrun & Hw);
      [|rewrite Hrun, <- app_assoc; eauto].
    exact Hrest.
Qed.

Lemma write_tests_succeeds path results :
  (forall p data w, (host_append host p data w).1 = Returned ()) ->
  forall i s, exists s', write_tests host fmt path i results s = (Returned (), s').
Proof.
  intros Hok. induction results as [|result rest IH]; intros i s; simpl; [eauto|].
  unfold mbind, M_bind, writeFile.
  specialize (Hok path (testTemplate fmt i result) (world s)).
  destruct (host_append host path _ (world s)) as [o w]. simpl in Hok. subst o.
  apply IH.
Qed.

(** X8. When the prompt list is not empty, appending to a file never
    fails, and the warm-up and every prompt in turn are answered with
    usage metadata, the run completes. *)
Theorem run_completes tests model baseUrl s msg0 w1 r0 results w2 :
  tests <> [] ->
  (forall p data w, (host_append host p data w).1 = Returned ()) ->
  host_invoke host baseUrl model "Hello" (world s) = (Returned msg0, w1) ->
  toResult "Hello" model msg0 = Returned r0 ->
  answers host model baseUrl w1 tests results w2 ->
  exists s', runBenchmark host fmt tests model baseUrl s = (Returned (), s').
Proof.
  intros Hne Hok Hi Hr0 Hans.
  unfold runBenchmark, mbind, M_bind, new_Date.
  rewrite measure_unfold.
  erewrite (prober_answered _ _ _ (emit _ s)) by (try apply format_Hello; eauto).
  edestruct (run_tests_answered model baseUrl (length tests) tests 0 [])
    as (s1 & -> & Hw); [exact Hans|].
  change ([] ++ results) with results.
  rewrite report_unfold. cbv zeta.
  destruct results as [|first rest] eqn:Hres.
  { apply answers_queries in Hans as [Hq _]. simpl in Hq. congruence. }
  cbn [lookup list_lookup].
  unfold writeFile at 1.
  pose proof (Hok (reportPath (host_now host (world s)))
                (summaryTemplate fmt tests (TestResult.model first)
                   (length (first :: rest)) (summarize (first :: rest)))
                (world (emit (EvLog "📝 Saving results to file...")
                          (emit (EvLog "🏁 Benchmark completed") s1)))) as Hsum.
  destruct (host_append host _ _ _) as [o w3]. simpl in Hsum. subst o.
  edestruct (write_tests_succeeds (reportPath (host_now host (world s)))
               (first :: rest) Hok 0) as (s4 & ->).
  eauto.
Qed.

(** X9. On an empty prompt list, once the warm-up is answered, the run
    fails with a [TypeError] after exactly five effects: the heating-up
    message, the warm-up request and three messages; it writes
    nothing. *)
Theorem empty_run_fails model baseUrl s msg0 w1 r0 :
  host_invoke host baseUrl model "Hello" (world s) = (Returned msg0, w1) ->
  toResult "Hello" model msg0 = Returned r0 ->
  runBenchmark host fmt [] model baseUrl s =
  (Thrown (TypeError "Cannot read properties of undefined (reading 'model')"),
   {| world := w1;
      trace := trace s ++
        [ EvLog "🔥 Heating up...";
          EvInvoke baseUrl model "Hello";
          EvLog "⛏️ Heating done, starting benchmark...";
          EvLog "🏁 Benchmark completed";
          EvLog "📝 Saving results to file..." ] |}).
Proof.
  intros Hi Hr0.
  unfold runBenchmark, mbind, M_bind, new_Date.
  rewrite measure_unfold.
  erewrite (prober_answered _ _ _ (emit _ s)) by (try apply format_Hello; eauto).
  simpl run_tests. unfold mret, M_ret. rewrite report_nothing.
  unfold emit. simpl. rewrite <- !app_assoc. reflexivity.
Qed.

End RunCases.

Section Verbatim.

Context {W : Type}.
Variable host : Host W.
Variable fmt : NumberFormat.

Lemma sent_brace_free baseUrl model tests requests :
  Forall (fun test => Template.brace_free (list_ascii_of_string test) = true) tests ->
  Forall2 (sent baseUrl model) tests requests ->
  requests = map (fun text => (baseUrl, model, text)) tests.
Proof.
  intros Hfree Hsent. induction Hsent as [|test request tests requests Hs _ IH].
  - reflexivity.
  - apply Forall_cons in Hfree as [Hfree Hrest].
    destruct Hs as (text & Hf & ->).
    rewrite format_brace_free in Hf by exact Hfree. injection Hf as <-.
    simpl. f_equal. apply IH, Hrest.
Qed.

(** X10. When no prompt contains a brace, the requests of a run are the
    warm-up prompt followed by the first prompts of the list, each as it
    is written and in list order; a run that completes has sent them
    all. *)
Theorem brace_free_prompts_are_the_requests tests model baseUrl (s : state W) r s' :
  Forall (fun test => Template.brace_free (list_ascii_of_string test) = true) tests ->
  runBenchmark host fmt tests model baseUrl s = (r, s') ->
  exists (evs : list event) (k : nat),
    events_of s s' evs /\
    invocations evs
      = map (fun text => (baseUrl, model, text)) ("Hello" :: take k tests) /\
    (r = Returned () -> take k tests = tests).
Proof.
  intros Hfree Hrun. destruct r as [[]|e].
  - destruct (run_returned _ _ _ _ _ _ _ Hrun)
      as (msg0 & w1 & r0 & w2 & results & first & evs & requests
          & _ & _ & _ & _ & Htr & Hinv & Hsent & _).
    exists evs, (length tests). rewrite firstn_all.
    split; [exact Htr|]. split; [|reflexivity].
    rewrite Hinv, (sent_brace_free _ _ _ _ Hfree Hsent). reflexivity.
  - destruct (run_trace _ _ _ _ _ _ _ _ Hrun)
      as (evs1 & evs2 & requests & k & Htr & _ & Hnone & Hinv & Hsent & _).
    exists (evs1 ++ evs2), k. split; [exact Htr|]. split; [|discriminate].
    rewrite invocations_app, Hnone, app_nil_r, Hinv.
    rewrite (sent_brace_free baseUrl model (take k tests) requests); [reflexivity| |exact Hsent].
    apply Forall_take, Hfree.
Qed.

End Verbatim.

Section ReadBack.

Lemma read_digit_char d acc s :
  (d < 10)%N ->
  read_digits acc (String (pretty_N_char d) s)
  = read_digits (10 * acc + N.to_nat d) s.
Proof.
  intros Hd.
  assert (nat_of_ascii (pretty_N_char d) - 48 = N.to_nat d)%nat as Hchar.
  { destruct d as [|p]; [reflexivity|].
    do 4 (destruct p as [p|p|]; try reflexivity; try lia). }
  simpl. rewrite Hchar. reflexivity.
Qed.

(** Reading a numeral that was printed in front of [s]. *)
Lemma read_pretty_N_go x :
  forall s, read_digits 0 (pretty_N_go x s) = read_digits (N.to_nat x) s.
Proof.
  induction (N.lt_wf_0 x) as [x _ IH]. intros s.
  destruct (decide (0 < x)%N) as [Hpos|Hzero].
  - rewrite pretty_N_go_step by exact Hpos.
    rewrite IH by (apply N.div_lt; lia).
    rewrite read_digit_char by (apply N.mod_lt; lia).
    f_equal. rewrite (N.div_mod x 10) at 3 by lia. lia.
  - replace x with 0%N by lia. reflexivity.
Qed.

Lemma read_pretty (n : nat) : read_nat (pretty n) = n.
Proof.
  unfold read_nat, pretty, pretty_nat, pretty, pretty_N.
  destruct (decide (N.of_nat n = 0%N)) as [Hzero|_].
  - simpl. lia.
  - rewrite read_pretty_N_go. simpl. lia.
Qed.

Lemma read_zeros m s :
  read_digits 0 (String.concat "" (replicate m "0") +:+ s) = read_digits 0 s.
Proof.
  induction m as [|m IH]; [reflexivity|].
  change (replicate (S m) "0") with ("0" :: replicate m "0").
  destruct m as [|m]; [reflexivity|]. exact IH.
Qed.

Lemma read_pad k n : read_nat (Date.pad k n) = n.
Proof.
  unfold Date.pad, padStart0, read_nat. rewrite read_zeros. apply read_pretty.
Qed.

Lemma digits_length k s : digits k s = true -> String.length s = k.
Proof.
  revert s. induction k as [|k IH]; intros [|a s] H; simpl in H; try discriminate.
  - reflexivity.
  - apply andb_prop in H as [_ H]. simpl. f_equal. apply IH, H.
Qed.

Lemma digits_2 s : digits 2 s = true -> exists a b, s = String a (String b "").
Proof.
  intros H. apply digits_length in H.
  destruct s as [|a [|b [|c s]]]; simpl in H; try discriminate; eauto.
Qed.

Lemma digits_3 s :
  digits 3 s = true -> exists a b c, s = String a (String b (String c "")).
Proof.
  intros H. apply digits_length in H.
  destruct s as [|a [|b [|c [|d s]]]]; simpl in H; try discriminate; eauto.
Qed.

Lemma digits_4 s :
  digits 4 s = true ->
  exists a b c d, s = String a (String b (String c (String d ""))).
Proof.
  intros H. apply digits_length in H.
  destruct s as [|a [|b [|c [|d [|e s]]]]]; simpl in H; try discriminate; eauto.
Qed.

(** The start time is read back from the timestamp. *)
Lemma read_timestamp_benchmarkDateTime now :
  Date.valid now -> (0 <= Date.year now <= 9999)%Z ->
  read_timestamp (benchmarkDateTime now) = now /\
  substring 20 24 (reportPath now) = benchmarkDateTime now.
Proof.
  intros Hvalid Hy. unfold reportPath.
  rewrite benchmarkDateTime_fields by assumption.
  destruct Hvalid as (HM & HD & Hh & Hm & Hs & Hms).
  destruct (digits_4 _ (pad_digits 4 (Z.to_nat (Date.year now)) ltac:(lia) ltac:(simpl; lia)))
    as (y1 & y2 & y3 & y4 & Ey).
  destruct (digits_2 _ (pad_digits 2 (Date.month now) ltac:(lia) ltac:(simpl; lia)))
    as (M1 & M2 & EM).
  destruct (digits_2 _ (pad_digits 2 (Date.day now) ltac:(lia) ltac:(simpl; lia)))
    as (D1 & D2 & ED).
  destruct (digits_2 _ (pad_digits 2 (Date.hours now) ltac:(lia) ltac:(simpl; lia)))
    as (h1 & h2 & Eh).
  destruct (digits_2 _ (pad_digits 2 (Date.minutes now) ltac:(lia) ltac:(simpl; lia)))
    as (m1 & m2 & Em).
  destruct (digits_2 _ (pad_digits 2 (Date.seconds now) ltac:(lia) ltac:(simpl; lia)))
    as (s1 & s2 & Es).
  destruct (digits_3 _ (pad_digits 3 (Date.milliseconds now) ltac:(lia) ltac:(simpl; lia)))
    as (l1 & l2 & l3 & El).
  split.
  - unfold read_timestamp. rewrite Ey, EM, ED, Eh, Em, Es, El.
    simpl.
    rewrite <- Ey, <- EM, <- ED, <- Eh, <- Em, <- Es, <- El.
    rewrite !read_pad. rewrite Z2Nat.id by lia.
    destruct now; reflexivity.
  - rewrite Ey, EM, ED, Eh, Em, Es, El. reflexivity.
Qed.

(** X11. For start times in the years 0000 to 9999 the report path
    spells the start time to the millisecond: reading its digits back
    gives the start time, so that two runs write to the same file
    exactly when they started in the same millisecond. *)
Theorem report_path_spells_start_time now1 now2 :
  Date.valid now1 -> (0 <= Date.year now1 <= 9999)%Z ->
  Date.valid now2 -> (0 <= Date.year now2 <= 9999)%Z ->
  report_start (reportPath now1) = now1 /\
  (reportPath now1 = reportPath now2 <-> now1 = now2).
Proof.
  intros Hv1 Hy1 Hv2 Hy2.
  assert (forall now, Date.valid now -> (0 <= Date.year now <= 9999)%Z ->
                 report_start (reportPath now) = now) as Hback.
  { intros now Hv Hy. unfold report_start.
    destruct (read_timestamp_benchmarkDateTime now Hv Hy) as [Hread ->]. exact Hread. }
  split; [apply Hback; assumption|]. split.
  - intros Hpath. rewrite <- (Hback now1), <- (Hback now2), Hpath by assumption.
    reflexivity.
  - intros ->. reflexivity.
Qed.

End ReadBack.

Section ReportFile.

Variable fmt : NumberFormat.
Variable clock : Date.t.
Variable server : string -> outcome AIMessage.

Implicit Types (s : state (gmap string string)) (files : gmap string string).

Lemma append_empty_r (a : string) : a +:+ "" = a.
Proof.
  induction a as [|c a IH]; [reflexivity|].
  change (String c (a +:+ "") = String c a). f_equal. exact IH.
Qed.

Lemma append_assoc (a b c : string) : (a +:+ b) +:+ c = a +:+ (b +:+ c).
Proof.
  induction a as [|x a IH]; [reflexivity|].
  change (String x ((a +:+ b) +:+ c) = String x (a +:+ (b +:+ c))). f_equal. exact IH.
Qed.

Lemma concat_empty_cons (x : string) (l : list string) :
  String.concat "" (x :: l) = x +:+ String.concat "" l.
Proof. destruct l; [symmetry; apply append_empty_r | reflexivity]. Qed.

(** The model server of [Mock.host] leaves the files alone. *)
Lemma answers_files model baseUrl files tests results files' :
  answers (Mock.host clock server) model baseUrl files tests results files' ->
  files' = files.
Proof.
  induction 1 as [|w test text msg w1 result tests results w2 _ Hinv _ _ IH].
  - reflexivity.
  - simpl in Hinv. injection Hinv as _ <-. exact IH.
Qed.

Lemma write_tests_files path results :
  forall i s cur,
    world s !! path = Some cur ->
    exists s',
      write_tests (Mock.host clock server) fmt path i results s = (Returned (), s') /\
      world s' =
        <[path := cur +:+ String.concat "" (map snd (sections fmt path i results))]>
          (world s).
Proof.
  induction results as [|result rest IH]; intros i s cur Hcur.
  - exists s. split; [reflexivity|]. simpl. rewrite append_empty_r.
    symmetry. apply insert_id, Hcur.
  - rewrite sections_cons.
    change (map snd ((path, testTemplate fmt i result) :: sections fmt path (S i) rest))
      with (testTemplate fmt i result :: map snd (sections fmt path (S i) rest)).
    rewrite concat_empty_cons, <- append_assoc.
    set (s1 := {| world := <[path := cur +:+ testTemplate fmt i result]> (world s);
                  trace := trace s ++ [EvWrite path (testTemplate fmt i result)] |}).
    destruct (IH (S i) s1 (cur +:+ testTemplate fmt i result)) as (s' & Hrun & Hworld).
    { apply lookup_insert_eq. }
    exists s'. split.
    + rewrite <- Hrun. cbn [write_tests]. unfold mbind, M_bind, writeFile. simpl.
      rewrite Hcur. reflexivity.
    + rewrite Hworld. unfold s1. simpl. apply insert_insert_eq.
Qed.

(** X12. On a file system where appending succeeds, a run that completes
    leaves in the report file what the file held before, followed by the
    summary and by the sections in order; every other file is as it
    was. *)
Theorem report_is_appended_to_the_file tests model baseUrl s s' :
  runBenchmark (Mock.host clock server) fmt tests model baseUrl s = (Returned (), s') ->
  exists results,
    answers (Mock.host clock server) model baseUrl (world s) tests results (world s) /\
    world s' !! reportPath clock =
      Some (default "" (world s !! reportPath clock) +:+
            String.concat ""
              (map snd (report_writes fmt (reportPath clock) tests model results
                          (summarize results)))) /\
    forall p, p <> reportPath clock -> world s' !! p = world s !! p.
Proof.
  intros Hrun.
  destruct (run_cases _ fmt _ _ _ _ _ _ Hrun)
    as [(e & _ & He) | (results & s1 & Hmeasure & Hreport)]; [discriminate|].
  destruct (measure_returned _ _ _ _ _ _ _ Hmeasure)
    as (msg0 & w1 & r0 & evs & requests & Hhello & _ & Hanswers & _).
  simpl in Hhello. injection Hhello as _ <-.
  pose proof (answers_files _ _ _ _ _ _ Hanswers) as Hw.
  rewrite Hw in Hanswers.
  exists results. split; [exact Hanswers|].
  destruct (answers_queries _ _ _ _ _ _ _ Hanswers) as [_ Hmodel].
  rewrite report_unfold in Hreport. cbv zeta in Hreport.
  change (host_now (Mock.host clock server) (world s)) with clock in Hreport.
  set (path := reportPath clock) in *.
  destruct (results !! 0%nat) as [first|] eqn:Hfirst; [|discriminate].
  assert (TestResult.model first = model) as Hfirst_model.
  { rewrite Forall_forall in Hmodel. apply Hmodel.
    eapply list_elem_of_lookup_2, Hfirst. }
  rewrite Hfirst_model in Hreport.
  set (summary := summaryTemplate fmt tests model (length results) (summarize results))
    in *.
  unfold writeFile in Hreport. simpl in Hreport.
  match type of Hreport with
  | match write_tests _ _ _ _ _ ?st with _ => _ end = _ => set (s3 := st) in *
  end.
  destruct (write_tests_files path results 0 s3
              (default "" (world s1 !! path) +:+ summary))
    as (s4 & Hwrite & Hworld).
  { apply lookup_insert_eq. }
  rewrite Hwrite in Hreport. injection Hreport as <-. cbn [world emit].
  rewrite Hworld. unfold s3. cbn [world]. rewrite insert_insert_eq, Hw.
  unfold report_writes. fold summary.
  change (imap (fun i result => (path, testTemplate fmt i result)) results)
    with (sections fmt path 0 results).
  change (map snd ((path, summary) :: sections fmt path 0 results))
    with (summary :: map snd (sections fmt path 0 results)).
  rewrite concat_empty_cons, <- append_assoc. split.
  - apply lookup_insert_eq.
  - intros p Hp. apply lookup_insert_ne. congruence.
Qed.

End ReportFile.


Section Scenario.

Let path := "./results/benchmark-2024-05-17T09-30-15-042Z.md".

Example scenario_returns : Mock.run = (Returned (), Mock.run.2).
Proof. vm_compute. reflexivity. Qed.

Example scenario_result : Mock.probe = (Returned Mock.result, Mock.probe.2).
Proof. vm_compute. reflexivity. Qed.

Example scenario_without_server :
  Mock.failing_run = (Thrown (TypeError "fetch failed"), Mock.failing_run.2).
Proof. vm_compute. reflexivity. Qed.

(** The summary of the scenario reports one test, a total time of
    "2.00s" and 6 tokens on average. *)
Example scenario_summary :
  summaryTemplate Mock.fmt Mock.tests Mock.model 1 (summarize [Mock.result]) =
  " # Ollama Benchmark" +:+ nl +:+
  tab +:+ nl +:+
  "## Summary" +:+ nl +:+
  "| **Metric**             | **Value**                         |" +:+ nl +:+
  "|------------------------|-----------------------------------|" +:+ nl +:+
  "| **Model**                     | test-model                       |" +:+ nl +:+
  "| **Total Tests**              | 1                         |" +:+ nl +:+
  "| **Total Time**               | 2.00s                 |" +:+ nl +:+
  "| **Total Prompt Tokens**      | 5                       |" +:+ nl +:+
  "| **Total Response Tokens**    | 1                      |" +:+ nl +:+
  "| **Total Tokens**             | 6                            |" +:+ nl +:+
  "| **Average Time**             | 2.00s                |" +:+ nl +:+
  "| **Average Prompt Tokens**    | 5                     |" +:+ nl +:+
  "| **Average Response Tokens**  | 1                    |" +:+ nl +:+
  "| **Average Tokens**           | 6                     |" +:+ nl +:+
  "| **Score**                    | 3.00 tokens/s |" +:+ nl +:+
  nl +:+
  "| **Test Prompts**            |" +:+ nl +:+
  "|------------------------------|" +:+ nl +:+
  "| 1. 2+2=? |" +:+ nl.
Proof. vm_compute. reflexivity. Qed.

(** The report of the scenario on disk: one file, holding the summary
    followed by the section of the test. *)
Example scenario_file :
  world Mock.run.2 !! path =
  Some (summaryTemplate Mock.fmt Mock.tests Mock.model 1 (summarize [Mock.result])
        +:+ testTemplate Mock.fmt 0 Mock.result).
Proof. vm_compute. reflexivity. Qed.

(** The timestamp of the scenario ends in the [Z] of the ISO string: it
    is not of the form [YYYY-MM-DDTHH-MM-SS-mmm]. *)
Lemma timestamp_keeps_Z :
  reportPath Mock.clock = "./results/benchmark-2024-05-17T09-30-15-042Z.md" /\
  benchmarkDateTime Mock.clock = "2024-05-17T09-30-15-042Z" /\
  has_form "YYYY-MM-DDTHH-MM-SS-mmm" (benchmarkDateTime Mock.clock) = false.
Proof. vm_compute. repeat split; reflexivity. Qed.

(** The run on no prompt, against a server that answers: the warm-up
    request is sent, and the run then fails with a [TypeError] when it
    renders the summary; no summary is written, with or without [NaN]
    in it. *)
Lemma empty_run_throws :
  Mock.empty_run.1
    = Thrown (TypeError "Cannot read properties of undefined (reading 'model')") /\
  invocations (trace Mock.empty_run.2) = [(Mock.baseUrl, Mock.model, "Hello")] /\
  writes (trace Mock.empty_run.2) = [] /\
  world Mock.empty_run.2 = ∅.
Proof. vm_compute. repeat split; reflexivity. Qed.

(** The prompt "{toString}" holds a placeholder and nothing is bound, yet
    the prober call does not fail: every object inherits [toString], the
    prompt is formatted, one request is sent and a result comes back. *)
Lemma inherited_placeholder_is_sent :
  Template.parseFString "{toString}" = Returned [Template.Var "toString"] /\
  (exists text, Template.format "{toString}" ∅ = Returned text) /\
  exists result s',
    benchmarkOllamaWithLangchain (Mock.host Mock.clock Mock.server)
      "{toString}" Mock.model Mock.baseUrl Mock.init = (Returned result, s') /\
    TestResult.query result = "{toString}" /\
    length (invocations (trace s')) = 1%nat.
Proof.
  split; [vm_compute; reflexivity|]. split; [eexists; vm_compute; reflexivity|].
  eexists. eexists. split; [vm_compute; reflexivity|]. split; reflexivity.
Qed.

End Scenario.

(* ===================================================================== *)
(** * The theorems at concrete inputs *)
(* ===================================================================== *)

Lemma summary_totals_are_sums_witness :
  Mock.tests <> [] /\
  Mock.run = (Returned (), Mock.run.2) /\
  exists results,
    map TestResult.query results = Mock.tests /\
    Summary.totalTokens (summarize results)
      = sum_of (map TestResult.totalTokens results) /\
    Summary.totalTime (summarize results)
      = sum_of (map TestResult.elapsedTime results).
Proof.
  pose proof scenario_returns as Hrun.
  assert (Mock.tests <> []) as Hne by discriminate.
  split; [exact Hne|]. split; [exact Hrun|].
  destruct (summary_totals_are_sums (Mock.host Mock.clock Mock.server) Mock.fmt
              Mock.tests Mock.model Mock.baseUrl Mock.init Mock.run.2 Hne Hrun)
    as (results & first & evs & Hq & _ & _ & _ & Htotal & _ & _ & Htime & _).
  exists results. repeat split; assumption.
Defined.

Lemma score_is_mean_of_rates_witness :
  Mock.run = (Returned (), Mock.run.2) /\
  exists results,
    map TestResult.query results = Mock.tests /\
    Summary.averageTokensPerSecond (summarize results)
      = mean_of (map TestResult.tokensPerSecond results).
Proof.
  pose proof scenario_returns as Hrun.
  split; [exact Hrun|].
  destruct (score_is_mean_of_rates (Mock.host Mock.clock Mock.server) Mock.fmt
              Mock.tests Mock.model Mock.baseUrl Mock.init Mock.run.2 Hrun)
    as [(results & first & evs & _ & Hq & _ & _ & _ & Hmean) _].
  exists results. split; assumption.
Defined.

Lemma averages_are_totals_over_count_witness :
  Mock.run = (Returned (), Mock.run.2) /\
  exists results : list TestResult.t,
    length results = length Mock.tests /\
    Summary.averageTotalTokens (summarize results)
      = Num.div (Summary.totalTokens (summarize results)) (Num.of_nat (length results)).
Proof.
  pose proof scenario_returns as Hrun.
  split; [exact Hrun|].
  destruct (averages_are_totals_over_count (Mock.host Mock.clock Mock.server) Mock.fmt
              Mock.tests Mock.model Mock.baseUrl Mock.init Mock.run.2 Hrun)
    as (results & first & evs & _ & Hlen & _ & _ & _ & _ & _ & _ & Havg).
  exists results. split; assumption.
Defined.

Lemma prober_elapsed_and_rate_witness :
  Mock.probe = (Returned Mock.result, Mock.probe.2) /\
  TestResult.elapsedTime Mock.result = Num.of_Z 2 /\
  TestResult.tokensPerSecond Mock.result = Num.of_Z 3 /\
  exists text msg usage,
    Template.format "2+2=?" ∅ = Returned text /\
    usage_metadata msg = Some usage /\
    TestResult.elapsedTime Mock.result
      = Num.div (to_number (total_duration msg)) Num._1e9 /\
    TestResult.tokensPerSecond Mock.result
      = Num.div (TestResult.totalTokens Mock.result) (TestResult.elapsedTime Mock.result).
Proof.
  pose proof scenario_result as Hrun.
  split; [exact Hrun|]. split; [reflexivity|]. split; [reflexivity|].
  destruct (prober_elapsed_and_rate (Mock.host Mock.clock Mock.server)
              "2+2=?" Mock.model Mock.baseUrl Mock.init Mock.result Mock.probe.2 Hrun)
    as (text & msg & usage & Hf & _ & Hu & _ & Helapsed & Hrate & _).
  exists text, msg, usage. repeat split; assumption.
Defined.

Lemma warm_up_is_discarded_witness :
  Mock.run = (Returned (), Mock.run.2) /\
  exists (results : list TestResult.t) evs,
    length results = length Mock.tests /\
    events_of Mock.init Mock.run.2 evs /\
    hd_error (invocations evs) = Some (Mock.baseUrl, Mock.model, "Hello") /\
    length (writes evs) = S (length Mock.tests).
Proof.
  pose proof scenario_returns as Hrun.
  split; [exact Hrun|].
  destruct (warm_up_is_discarded (Mock.host Mock.clock Mock.server) Mock.fmt
              Mock.tests Mock.model Mock.baseUrl Mock.init (Returned ()) Mock.run.2 Hrun)
    as [_ Hreturned].
  destruct (Hreturned eq_refl)
    as (msg0 & w1 & r0 & w2 & results & first & evs & _ & _ & _ & Hlen & _ & _
        & Htr & Hw & Hcount).
  exists results, evs. split; [exact Hlen|]. split; [exact Htr|].
  split; [|exact Hcount].
  unfold events_of in Htr. simpl in Htr. rewrite <- Htr. vm_compute. reflexivity.
Defined.

Lemma report_path_timestamp_witness :
  Mock.run = (Mock.run.1, Mock.run.2) /\
  events_of Mock.init Mock.run.2 (trace Mock.run.2) /\
  Date.valid Mock.clock /\
  (0 <= Date.year Mock.clock <= 9999)%Z /\
  Forall (fun w => w.1 = "./results/benchmark-" +:+ benchmarkDateTime Mock.clock +:+ ".md")
    (writes (trace Mock.run.2)) /\
  has_form "YYYY-MM-DDTHH-MM-SS-mmmZ" (benchmarkDateTime Mock.clock) = true /\
  contains ":" (benchmarkDateTime Mock.clock) = false /\
  contains "." (benchmarkDateTime Mock.clock) = false.
Proof.
  assert (Mock.run = (Mock.run.1, Mock.run.2)) as Hrun by apply surjective_pairing.
  assert (events_of Mock.init Mock.run.2 (trace Mock.run.2)) as Htr by reflexivity.
  assert (Date.valid Mock.clock) as Hvalid by (unfold Date.valid; simpl; lia).
  assert (0 <= Date.year Mock.clock <= 9999)%Z as Hyear by (simpl; lia).
  do 4 (split; [assumption|]).
  destruct (report_path_timestamp (Mock.host Mock.clock Mock.server) Mock.fmt
              Mock.tests Mock.model Mock.baseUrl Mock.init Mock.run.1 Mock.run.2
              (trace Mock.run.2) Hrun Htr Hvalid Hyear)
    as (Hpath & _ & Hform & Hcolon & Hperiod).
  repeat split; assumption.
Defined.

Lemma one_call_per_prompt_in_order_witness :
  Mock.run = (Returned (), Mock.run.2) /\
  exists (results : list TestResult.t) evs requests,
    events_of Mock.init Mock.run.2 evs /\
    invocations evs = (Mock.baseUrl, Mock.model, "Hello") :: requests /\
    Forall2 (sent Mock.baseUrl Mock.model) Mock.tests requests /\
    forall i test, Mock.tests !! i = Some test ->
      exists result,
        results !! i = Some result /\
        TestResult.query result = test /\
        writes evs !! S i = Some (reportPath Mock.clock, testTemplate Mock.fmt i result).
Proof.
  pose proof scenario_returns as Hrun.
  split; [exact Hrun|].
  destruct (one_call_per_prompt_in_order (Mock.host Mock.clock Mock.server) Mock.fmt
              Mock.tests Mock.model Mock.baseUrl Mock.init (Returned ()) Mock.run.2 Hrun)
    as [_ Hreturned].
  destruct (Hreturned eq_refl)
    as (msg0 & w1 & w2 & results & evs & requests & _ & _ & Htr & Hi & Hs & _ & Hsections).
  exists results, evs, requests. repeat split; assumption.
Defined.

Lemma prober_failure_writes_nothing_witness :
  Mock.failing_run = (Mock.failing_run.1, Mock.failing_run.2) /\
  fails (Mock.host Mock.clock Mock.warm_only) Mock.model Mock.baseUrl ∅
    ["Hello"; "a"; "b"] (TypeError "fetch failed") /\
  Mock.failing_run.1 = Thrown (TypeError "fetch failed") /\
  writes (trace Mock.failing_run.2) = writes (trace Mock.init) /\
  world Mock.failing_run.2 = ∅.
Proof.
  assert (Mock.failing_run = (Mock.failing_run.1, Mock.failing_run.2)) as Hrun
      by apply surjective_pairing.
  assert (fails (Mock.host Mock.clock Mock.warm_only) Mock.model Mock.baseUrl ∅
            ["Hello"; "a"; "b"] (TypeError "fetch failed")) as Hfails.
  { eapply fails_later; [reflexivity | reflexivity | reflexivity |].
    apply fails_here. right. exists "a". split; reflexivity. }
  split; [exact Hrun|]. split; [exact Hfails|].
  destruct (prober_failure_writes_nothing (Mock.host Mock.clock Mock.warm_only) Mock.fmt
              ["a"; "b"] Mock.model Mock.baseUrl Mock.init
              Mock.failing_run.1 Mock.failing_run.2 Hrun)
    as (_ & Hnothing & _).
  destruct (Hnothing _ Hfails) as [Hthrown Hwrites].
  split; [exact Hthrown|]. split; [exact Hwrites|].
  vm_compute. reflexivity.
Defined.

Lemma unbound_placeholder_fails_witness :
  Template.parseFString "{x}" = Returned [Template.Var "x"] /\
  In (Template.Var "x") [Template.Var "x"] /\
  Template.inherits "x" = false /\
  exists e,
    benchmarkOllamaWithLangchain (Mock.host Mock.clock Mock.server)
      "{x}" Mock.model Mock.baseUrl Mock.init = (Thrown e, Mock.init).
Proof.
  assert (Template.parseFString "{x}" = Returned [Template.Var "x"]) as Hparse
      by (vm_compute; reflexivity).
  assert (In (Template.Var "x") [Template.Var "x"]) as Hin by (left; reflexivity).
  assert (Template.inherits "x" = false) as Hown by reflexivity.
  split; [exact Hparse|]. split; [exact Hin|]. split; [exact Hown|].
  exact (proj1 (unbound_placeholder_fails (Mock.host Mock.clock Mock.server)
                  "{x}" Mock.model Mock.baseUrl Mock.init [Template.Var "x"] "x"
                  Hparse Hin Hown)).
Defined.

Lemma brace_free_prompt_is_sent_verbatim_witness :
  Template.brace_free (list_ascii_of_string "2+2=?") = true /\
  Template.format "2+2=?" ∅ = Returned "2+2=?" /\
  exists o w,
    Mock.probe =
    (match o with
     | Returned msg => toResult "2+2=?" Mock.model msg
     | Thrown e => Thrown e
     end,
     {| world := w; trace := [EvInvoke Mock.baseUrl Mock.model "2+2=?"] |}).
Proof.
  assert (Template.brace_free (list_ascii_of_string "2+2=?") = true) as Hfree
      by reflexivity.
  split; [exact Hfree|].
  destruct (brace_free_prompt_is_sent_verbatim (Mock.host Mock.clock Mock.server)
              "2+2=?" Mock.model Mock.baseUrl Mock.init Hfree)
    as (Hformat & o & w & _ & Hprobe).
  split; [exact Hformat|]. exists o, w. exact Hprobe.
Defined.

Lemma prober_outcome_witness :
  Mock.probe = (Returned Mock.result, Mock.probe.2) /\
  Template.format "2+2=?" ∅ = Returned "2+2=?" /\
  events_of Mock.init Mock.probe.2 [EvInvoke Mock.baseUrl Mock.model "2+2=?"] /\
  world Mock.probe.2 = ∅.
Proof.
  pose proof scenario_result as Hrun.
  assert (Template.format "2+2=?" ∅ = Returned "2+2=?") as Hformat
      by (vm_compute; reflexivity).
  split; [exact Hrun|]. split; [exact Hformat|].
  destruct (prober_outcome (Mock.host Mock.clock Mock.server)
              "2+2=?" Mock.model Mock.baseUrl Mock.init
              (Returned Mock.result) Mock.probe.2 Hrun)
    as [_ Hformats].
  destruct (Hformats "2+2=?" Hformat) as (Htr & Hworld & _).
  split; [exact Htr | exact Hworld].
Defined.

Lemma missing_duration_is_NaN_witness :
  Template.format "2+2=?" ∅ = Returned "2+2=?" /\
  usage_metadata Cases.no_duration = Some Cases.usage /\
  total_duration Cases.no_duration = JsUndefined /\
  exists result s',
    benchmarkOllamaWithLangchain
      (Mock.host Mock.clock (fun _ => Returned Cases.no_duration))
      "2+2=?" Mock.model Mock.baseUrl Mock.init = (Returned result, s') /\
    TestResult.elapsedTime result = Num.NaN /\
    TestResult.tokensPerSecond result = Num.NaN /\
    TestResult.totalTokens result = Num.of_Z 6.
Proof.
  assert (Template.format "2+2=?" ∅ = Returned "2+2=?") as Hformat
      by (vm_compute; reflexivity).
  split; [exact Hformat|]. split; [reflexivity|]. split; [reflexivity|].
  exact (missing_duration_is_NaN
           (Mock.host Mock.clock (fun _ => Returned Cases.no_duration))
           "2+2=?" Mock.model Mock.baseUrl Mock.init "2+2=?" Cases.no_duration ∅
           Cases.usage Hformat eq_refl eq_refl eq_refl).
Defined.

Lemma zero_duration_is_not_an_error_witness :
  Template.format "2+2=?" ∅ = Returned "2+2=?" /\
  usage_metadata Cases.zero_duration = Some Cases.usage /\
  total_duration Cases.zero_duration = JsNumber (Num.of_Z 0) /\
  exists result s',
    benchmarkOllamaWithLangchain
      (Mock.host Mock.clock (fun _ => Returned Cases.zero_duration))
      "2+2=?" Mock.model Mock.baseUrl Mock.init = (Returned result, s') /\
    TestResult.elapsedTime result = Num.zero /\
    TestResult.tokensPerSecond result = S754_infinity false.
Proof.
  assert (Template.format "2+2=?" ∅ = Returned "2+2=?") as Hformat
      by (vm_compute; reflexivity).
  split; [exact Hformat|]. split; [reflexivity|]. split; [reflexivity|].
  destruct (zero_duration_is_not_an_error
              (Mock.host Mock.clock (fun _ => Returned Cases.zero_duration))
              "2+2=?" Mock.model Mock.baseUrl Mock.init "2+2=?" Cases.zero_duration ∅
              Cases.usage Hformat eq_refl eq_refl eq_refl)
    as (result & s' & Hrun & Helapsed & Hpositive & _).
  exists result, s'. split; [exact Hrun|]. split; [exact Helapsed|].
  eapply Hpositive. vm_compute. reflexivity.
Defined.

Lemma NaN_spreads_to_the_summary_witness :
  In Cases.unmeasured [Mock.result; Cases.unmeasured] /\
  TestResult.elapsedTime Cases.unmeasured = Num.NaN /\
  Summary.totalTime (summarize [Mock.result; Cases.unmeasured]) = Num.NaN /\
  Summary.averageTime (summarize [Mock.result; Cases.unmeasured]) = Num.NaN.
Proof.
  assert (In Cases.unmeasured [Mock.result; Cases.unmeasured]) as Hin
      by (right; left; reflexivity).
  split; [exact Hin|]. split; [reflexivity|].
  exact (proj1 (NaN_spreads_to_the_summary [Mock.result; Cases.unmeasured]
                  Cases.unmeasured Hin) eq_refl).
Defined.

Lemma completed_run_events_witness :
  Mock.run = (Returned (), Mock.run.2) /\
  exists results texts,
    Forall2 (fun test text => Template.format test ∅ = Returned text) Mock.tests texts /\
    events_of Mock.init Mock.run.2
      (run_events Mock.fmt (reportPath Mock.clock) Mock.tests Mock.model Mock.baseUrl
         texts results).
Proof.
  pose proof scenario_returns as Hrun.
  split; [exact Hrun|].
  destruct (completed_run_events (Mock.host Mock.clock Mock.server) Mock.fmt
              Mock.tests Mock.model Mock.baseUrl Mock.init Mock.run.2 Hrun)
    as (msg0 & w1 & w2 & results & texts & _ & _ & Htexts & Htr).
  exists results, texts. split; [exact Htexts | exact Htr].
Defined.

Lemma run_failure_causes_witness :
  Mock.failing_run = (Thrown (TypeError "fetch failed"), Mock.failing_run.2) /\
  (fails (Mock.host Mock.clock Mock.warm_only) Mock.model Mock.baseUrl ∅
     ["Hello"; "a"; "b"] (TypeError "fetch failed") \/
   (["a"; "b"] = [] /\
    TypeError "fetch failed"
      = TypeError "Cannot read properties of undefined (reading 'model')") \/
   exists data w,
     host_append (Mock.host Mock.clock Mock.warm_only) (reportPath Mock.clock) data w
       = (Thrown (TypeError "fetch failed"), world Mock.failing_run.2)).
Proof.
  pose proof scenario_without_server as Hrun.
  split; [exact Hrun|].
  exact (run_failure_causes (Mock.host Mock.clock Mock.warm_only) Mock.fmt
           ["a"; "b"] Mock.model Mock.baseUrl Mock.init (TypeError "fetch failed")
           Mock.failing_run.2 Hrun).
Defined.

Lemma run_completes_witness :
  Mock.tests <> [] /\
  (forall p data w,
     (host_append (Mock.host Mock.clock Mock.server) p data w).1 = Returned ()) /\
  toResult "Hello" Mock.model Mock.reply = Returned Cases.warm_up /\
  answers (Mock.host Mock.clock Mock.server) Mock.model Mock.baseUrl ∅
    Mock.tests [Mock.result] ∅ /\
  exists s', Mock.run = (Returned (), s').
Proof.
  assert (Mock.tests <> []) as Hne by discriminate.
  assert (forall p data w,
            (host_append (Mock.host Mock.clock Mock.server) p data w).1 = Returned ())
    as Hok by reflexivity.
  assert (toResult "Hello" Mock.model Mock.reply = Returned Cases.warm_up) as Hwarm
      by (vm_compute; reflexivity).
  assert (answers (Mock.host Mock.clock Mock.server) Mock.model Mock.baseUrl ∅
            Mock.tests [Mock.result] ∅) as Hanswers.
  { apply (answers_cons _ _ _ ∅ "2+2=?" "2+2=?" Mock.reply ∅ Mock.result [] [] ∅);
      [vm_compute; reflexivity | reflexivity | vm_compute; reflexivity
      | apply answers_nil]. }
  do 4 (split; [assumption|]).
  exact (run_completes (Mock.host Mock.clock Mock.server) Mock.fmt
           Mock.tests Mock.model Mock.baseUrl Mock.init Mock.reply ∅ Cases.warm_up
           [Mock.result] ∅ Hne Hok eq_refl Hwarm Hanswers).
Defined.

Lemma empty_run_fails_witness :
  toResult "Hello" Mock.model Mock.reply = Returned Cases.warm_up /\
  Mock.empty_run =
  (Thrown (TypeError "Cannot read properties of undefined (reading 'model')"),
   {| world := ∅;
      trace :=
        [ EvLog "🔥 Heating up...";
          EvInvoke Mock.baseUrl Mock.model "Hello";
          EvLog "⛏️ Heating done, starting benchmark...";
          EvLog "🏁 Benchmark completed";
          EvLog "📝 Saving results to file..." ] |}).
Proof.
  assert (toResult "Hello" Mock.model Mock.reply = Returned Cases.warm_up) as Hwarm
      by (vm_compute; reflexivity).
  split; [exact Hwarm|].
  exact (empty_run_fails (Mock.host Mock.clock Mock.server) Mock.fmt
           Mock.model Mock.baseUrl Mock.init Mock.reply ∅ Cases.warm_up
           eq_refl Hwarm).
Defined.

Lemma brace_free_prompts_are_the_requests_witness :
  Forall (fun test => Template.brace_free (list_ascii_of_string test) = true)
    Config.tests /\
  Cases.shipped_run = (Cases.shipped_run.1, Cases.shipped_run.2) /\
  exists evs k,
    events_of Mock.init Cases.shipped_run.2 evs /\
    invocations evs
      = map (fun text => (Config.baseUrl, Config.model, text))
          ("Hello" :: take k Config.tests).
Proof.
  assert (Forall (fun test => Template.brace_free (list_ascii_of_string test) = true)
            Config.tests) as Hfree.
  { apply Forall_forall. intros test Hin.
    assert (forallb (fun test => Template.brace_free (list_ascii_of_string test))
              Config.tests = true) as Hall by (vm_compute; reflexivity).
    rewrite forallb_forall in Hall. apply Hall, list_elem_of_In, Hin. }
  assert (Cases.shipped_run = (Cases.shipped_run.1, Cases.shipped_run.2)) as Hrun
      by apply surjective_pairing.
  split; [exact Hfree|]. split; [exact Hrun|].
  destruct (brace_free_prompts_are_the_requests (Mock.host Mock.clock Mock.server)
              Mock.fmt Config.tests Config.model Config.baseUrl Mock.init
              Cases.shipped_run.1 Cases.shipped_run.2 Hfree Hrun)
    as (evs & k & Htr & Hinv & _).
  exists evs, k. split; [exact Htr | exact Hinv].
Defined.

Lemma report_path_spells_start_time_witness :
  Date.valid Mock.clock /\ (0 <= Date.year Mock.clock <= 9999)%Z /\
  Date.valid Cases.next_millisecond /\
  (0 <= Date.year Cases.next_millisecond <= 9999)%Z /\
  report_start (reportPath Mock.clock) = Mock.clock /\
  reportPath Mock.clock <> reportPath Cases.next_millisecond.
Proof.
  assert (Date.valid Mock.clock) as Hv1 by (unfold Date.valid; simpl; lia).
  assert (0 <= Date.year Mock.clock <= 9999)%Z as Hy1 by (simpl; lia).
  assert (Date.valid Cases.next_millisecond) as Hv2 by (unfold Date.valid; simpl; lia).
  assert (0 <= Date.year Cases.next_millisecond <= 9999)%Z as Hy2 by (simpl; lia).
  do 4 (split; [assumption|]).
  destruct (report_path_spells_start_time Mock.clock Cases.next_millisecond
              Hv1 Hy1 Hv2 Hy2) as [Hback Hsame].
  split; [exact Hback|].
  intros Hpath. apply Hsame in Hpath. discriminate.
Defined.

Lemma report_is_appended_to_the_file_witness :
  Mock.run = (Returned (), Mock.run.2) /\
  exists results,
    world Mock.run.2 !! reportPath Mock.clock =
      Some ("" +:+
            String.concat ""
              (map snd (report_writes Mock.fmt (reportPath Mock.clock) Mock.tests
                          Mock.model results (summarize results)))) /\
    forall p, p <> reportPath Mock.clock -> world Mock.run.2 !! p = None.
Proof.
  pose proof scenario_returns as Hrun.
  split; [exact Hrun|].
  destruct (report_is_appended_to_the_file Mock.fmt Mock.clock Mock.server
              Mock.tests Mock.model Mock.baseUrl Mock.init Mock.run.2 Hrun)
    as (results & _ & Hfile & Hother).
  exists results. split; [exact Hfile | exact Hother].
Defined.
